(** * Welch's t-test over tabular data: a shallow embedding

    The repository holds two entry points with the same name:
    - [src/custom_welch_t_test/core.py] ([Library.welch_t_test] below), which
      raises the exceptions of [src/custom_welch_t_test/exceptions.py];
    - [src/welch_t_test.py] ([Script.welch_t_test] below), the permissive
      variant, which returns a one-key mapping instead of raising.

    Python control flow is written in an exception monad ([outcome]); the
    library is written a second time on the interpreter's store
    ([OnStore]), where the table is an object behind a reference.  The
    numbers are kept behind the interface [Arith], with two instances: IEEE
    binary64 ([binary64], the kernel's primitive floats, which is what numpy
    computes with) and the real numbers ([exact], the arithmetic the
    formulas of the specification are written in). *)

From Stdlib Require Import List String Ascii Bool Arith Lia ZArith.
From Stdlib Require Import DecimalString.
From Stdlib Require Import Floats.
From Stdlib Require Import Reals Lra.
Import ListNotations.

Local Open Scope string_scope.
Local Open Scope list_scope.

(** ** Numbers *)

(** What the source asks of a float64: the arithmetic of numpy scalars, the
    conversion of a Python [int] (a length), [pd.isna] and [==]. *)
Class Arith (F : Type) : Type := {
  fzero : F;
  fadd : F -> F -> F;
  fsub : F -> F -> F;
  fmul : F -> F -> F;
  fdiv : F -> F -> F;
  fsqrt : F -> F;
  of_int : nat -> F;
  fisnan : F -> bool;
  feqb : F -> F -> bool
}.

(** IEEE 754 binary64.  Lengths are below [2^63], where [of_uint63] is the
    int-to-float64 conversion. *)
#[export] Instance binary64 : Arith float := {
  fzero := 0%float;
  fadd := PrimFloat.add;
  fsub := PrimFloat.sub;
  fmul := PrimFloat.mul;
  fdiv := PrimFloat.div;
  fsqrt := PrimFloat.sqrt;
  of_int := fun n => PrimFloat.of_uint63 (Uint63.of_Z (Z.of_nat n));
  fisnan := PrimFloat.is_nan;
  feqb := PrimFloat.eqb
}.

(** Exact arithmetic: no value is missing, and equality is that of [R]. *)
#[export] Instance exact : Arith R := {
  fzero := 0%R;
  fadd := Rplus;
  fsub := Rminus;
  fmul := Rmult;
  fdiv := Rdiv;
  fsqrt := sqrt;
  of_int := INR;
  fisnan := fun _ => false;
  feqb := fun x y => if Req_dec_T x y then true else false
}.

(** [x**2] on a numpy float64, taken as the product [x * x]. *)
Definition fsq {F} {arith : Arith F} (x : F) : F := fmul x x.

(** [np.add.reduce]: a left-to-right sum from zero (numpy switches to
    pairwise blocks from eight elements on, which changes rounding only). *)
Definition fsum {F} {arith : Arith F} (xs : list F) : F := fold_left fadd xs fzero.

(** ** Python values, exceptions and the exception monad *)

(** A cell of a table, or a group-identifying value: a number, a string, or
    a missing value ([None]; a float NaN is [VNum] of a NaN). *)
Inductive value (F : Type) : Type :=
| VNum (x : F)
| VStr (s : string)
| VNone.
Arguments VNum {F} x.
Arguments VStr {F} s.
Arguments VNone {F}.

(** The exception classes of [exceptions.py], and the built-in ones the
    operations used here raise.  All are subclasses of [Exception]. *)
Inductive exn_class : Type :=
| WelchTTestError
| InvalidDataError
| InvalidColumnError
| InsufficientDataError
| StatisticalError
| TypeError
| ValueError
| AttributeError
| KeyError
| OverflowError.

Definition exn_class_eqb (c d : exn_class) : bool :=
  match c, d with
  | WelchTTestError, WelchTTestError
  | InvalidDataError, InvalidDataError
  | InvalidColumnError, InvalidColumnError
  | InsufficientDataError, InsufficientDataError
  | StatisticalError, StatisticalError
  | TypeError, TypeError
  | ValueError, ValueError
  | AttributeError, AttributeError
  | KeyError, KeyError
  | OverflowError, OverflowError => true
  | _, _ => false
  end.

(** The class statements of [exceptions.py]: the direct base of each class
    ([None] for a base outside the library, i.e. [Exception]). *)
Definition base (c : exn_class) : option exn_class :=
  match c with
  | WelchTTestError => None
  | InvalidDataError => Some WelchTTestError
  | InvalidColumnError => Some WelchTTestError
  | InsufficientDataError => Some InvalidDataError
  | StatisticalError => Some WelchTTestError
  | TypeError | ValueError | AttributeError | KeyError | OverflowError => None
  end.

(** The class and its bases, nearest first (the hierarchy is three deep). *)
Definition mro (c : exn_class) : list exn_class :=
  c :: match base c with
       | None => []
       | Some b => b :: match base b with
                        | None => []
                        | Some b' => b' :: match base b' with
                                           | None => []
                                           | Some b'' => [b'']
                                           end
                        end
       end.

Definition issubclass (c d : exn_class) : bool := existsb (exn_class_eqb d) (mro c).

(** A raised exception: its class and [str(e)]. *)
Record exn : Type := mk_exn { exn_cls : exn_class; exn_message : string }.

Definition isinstance (e : exn) (c : exn_class) : bool := issubclass (exn_cls e) c.

(** The three kinds [__init__.py] exports, and what the docstring of the
    entry point lists under Raises. *)
Definition in_taxonomy (e : exn) : bool := isinstance e WelchTTestError.

Inductive outcome (A : Type) : Type :=
| Return (a : A)
| Raise (e : exn).
Arguments Return {A} a.
Arguments Raise {A} e.

Definition bind {A B} (m : outcome A) (k : A -> outcome B) : outcome B :=
  match m with
  | Return a => k a
  | Raise e => Raise e
  end.

Declare Scope py_scope.
Delimit Scope py_scope with py.
Notation "x <- m ;; k" := (bind m (fun x => k))
  (at level 61, m at next level, right associativity) : py_scope.
Notation "' p <- m ;; k" := (bind m (fun x => match x with p => k end))
  (at level 61, p pattern, m at next level, right associativity) : py_scope.
Notation "'when' b 'raise' e ;; k" := (if b then Raise e else k)
  (at level 61, b at level 200, e at next level, right associativity) : py_scope.
Local Open Scope py_scope.

(** ** The table *)

(** A pandas DataFrame, column by column. *)
Definition Series (F : Type) : Type := list (value F).
Definition DataFrame (F : Type) : Type := list (string * Series F).

(** What a caller may pass for [dataframe]: a DataFrame, or an object of
    another type (named, for the text of the AttributeError). *)
Inductive table_arg (F : Type) : Type :=
| Frame (df : DataFrame F)
| NotFrame (type_name : string).
Arguments Frame {F} df.
Arguments NotFrame {F} type_name.

(** What a caller may pass for [control_test_values]: a list, a tuple or
    a one-dimensional ndarray; another sized iterable (a str, a dict, a
    set), given by the elements it iterates over; an object with no
    length; or a zero-dimensional ndarray, which is an ndarray and has no
    length either. *)
Inductive pair_arg (F : Type) : Type :=
| SeqArg (l : list (value F))
| SizedArg (l : list (value F))
| UnsizedArg (type_name : string)
| ScalarArrayArg.
Arguments SeqArg {F} l.
Arguments SizedArg {F} l.
Arguments UnsizedArg {F} type_name.
Arguments ScalarArrayArg {F}.

(** Decimal rendering of a Python [int]. *)
Definition str_int (n : nat) : string := NilEmpty.string_of_uint (Nat.to_uint n).

Section Pandas.
Context {F : Type} {arith : Arith F}.

(** [pd.isna] on a cell. *)
Definition isna (v : value F) : bool :=
  match v with
  | VNum x => fisnan x
  | VStr _ => false
  | VNone => true
  end.

(** [==] between a cell and a value, element-wise as pandas applies it:
    a missing cell equals nothing. *)
Definition value_eqb (a b : value F) : bool :=
  match a, b with
  | VNum x, VNum y => feqb x y
  | VStr s, VStr t => String.eqb s t
  | _, _ => false
  end.

(** [dataframe.columns]. *)
Definition columns (df : DataFrame F) : list string := map fst df.

(** [name in dataframe.columns]. *)
Definition has_column (name : string) (df : DataFrame F) : bool :=
  existsb (String.eqb name) (columns df).

(** [dataframe.empty]: no column, or no row. *)
Definition empty (df : DataFrame F) : bool :=
  match df with
  | [] => true
  | (_, s) :: _ => Nat.eqb (List.length s) 0
  end.

(** [dataframe[name]]. *)
Fixpoint getitem (df : DataFrame F) (name : string) : outcome (Series F) :=
  match df with
  | [] => Raise (mk_exn KeyError ("'" ++ name ++ "'"))
  | (c, s) :: rest => if String.eqb name c then Return s else getitem rest name
  end.

(** [series.dropna()]. *)
Definition dropna (s : Series F) : Series F := filter (fun v => negb (isna v)) s.

(** The distinct values of a list, first occurrences kept. *)
Fixpoint unique (s : Series F) : Series F :=
  match s with
  | [] => []
  | v :: rest => v :: filter (fun w => negb (value_eqb v w)) (unique rest)
  end.

(** [series.nunique()]: missing values are not counted. *)
Definition nunique (s : Series F) : nat := List.length (unique (dropna s)).

(** [dataframe[dataframe[iv] == v][dv]], given the two columns: the cells
    of [dep] on the rows whose [indep] cell equals [v]. *)
Definition select (indep dep : Series F) (v : value F) : Series F :=
  map snd (filter (fun row => value_eqb (fst row) v) (combine indep dep)).

(** The float64 array behind [.values], when every cell is a number. *)
Fixpoint as_numeric (s : Series F) : option (list F) :=
  match s with
  | [] => Some []
  | VNum x :: rest => option_map (cons x) (as_numeric rest)
  | _ :: _ => None
  end.

(** The arithmetic of [np.mean(a)]. *)
Definition mean (xs : list F) : F := fdiv (fsum xs) (of_int (List.length xs)).

(** The arithmetic of [np.var(a, ddof=1)]: the squared deviations from
    the mean, summed and divided by [max(n - 1, 0)]. *)
Definition var1 (xs : list F) : F :=
  fdiv (fsum (map (fun x => fsq (fsub x (mean xs))) xs)) (of_int (List.length xs - 1)).

(** The arithmetic of [np.std(a, ddof=1)]. *)
Definition std1 (xs : list F) : F := fsqrt (var1 xs).
End Pandas.

(** ** What the source takes from outside the repository *)

(** The two-sided p-value [scipy] returns is the tail probability of
    Student's t distribution at the statistic [t] with [df] degrees of
    freedom; it is kept as that expression. *)
Inductive pvalue (F : Type) : Type :=
| TwoSidedT (t df : F).
Arguments TwoSidedT {F} t df.

(** The interpreter and the libraries, as far as the source relies on them:
    [str] of a float (inside an f-string), the text of the TypeError numpy
    raises when asked to reduce a non-numeric array, and the numeric
    primitive [scipy.stats.ttest_ind(a, b, equal_var=False)], which returns
    a statistic and a p-value or raises. *)
Class Runtime (F : Type) : Type := {
  str_num : F -> string;
  type_error_text : Series F -> string;
  ttest_ind : Series F -> Series F -> outcome (F * pvalue F)
}.

(** The result mapping both entry points build, key by key. *)
Record Results (F : Type) : Type := mk_results {
  t_statistic : F;
  p_value : pvalue F;
  degrees_of_freedom : F;
  mean_control : F;
  mean_test : F;
  std_control : F;
  std_test : F;
  n_control : nat;
  n_test : nat;
  mean_difference : F;
  control_value : value F;
  test_value : value F
}.
Arguments mk_results {F}.
Arguments t_statistic {F} r.
Arguments p_value {F} r.
Arguments degrees_of_freedom {F} r.
Arguments mean_control {F} r.
Arguments mean_test {F} r.
Arguments std_control {F} r.
Arguments std_test {F} r.
Arguments n_control {F} r.
Arguments n_test {F} r.
Arguments mean_difference {F} r.
Arguments control_value {F} r.
Arguments test_value {F} r.

(** A dict as the permissive variant returns it: the result mapping, or the
    one-key mapping [{"error": message}]. *)
Inductive pydict (F : Type) : Type :=
| ResultMapping (r : Results F)
| ErrorMapping (error : string).
Arguments ResultMapping {F} r.
Arguments ErrorMapping {F} error.

Section Python.
Context {F : Type} {arith : Arith F} {runtime : Runtime F}.

(** [str(v)], as an f-string renders a group-identifying value. *)
Definition py_str (v : value F) : string :=
  match v with
  | VNum x => str_num x
  | VStr s => s
  | VNone => "None"
  end.

(** [dataframe.columns] on whatever was passed. *)
Definition attr_columns (dataframe : table_arg F) : outcome (list string) :=
  match dataframe with
  | Frame df => Return (columns df)
  | NotFrame t => Raise (mk_exn AttributeError ("'" ++ t ++ "' object has no attribute 'columns'"))
  end.

(** [dataframe[name]] on whatever was passed. *)
Definition subscript (dataframe : table_arg F) (name : string) : outcome (Series F) :=
  match dataframe with
  | Frame df => getitem df name
  | NotFrame t => Raise (mk_exn TypeError ("'" ++ t ++ "' object is not subscriptable"))
  end.

(** [len(control_test_values)]. *)
Definition py_len (ctv : pair_arg F) : outcome nat :=
  match ctv with
  | SeqArg l | SizedArg l => Return (List.length l)
  | UnsizedArg t => Raise (mk_exn TypeError ("object of type '" ++ t ++ "' has no len()"))
  | ScalarArrayArg => Raise (mk_exn TypeError "len() of unsized object")
  end.

(** [control_value, test_value = control_test_values]. *)
Definition unpack2 (ctv : pair_arg F) : outcome (value F * value F) :=
  match ctv with
  | SeqArg l | SizedArg l =>
      match l with
      | [a; b] => Return (a, b)
      | [] | [_] =>
          Raise (mk_exn ValueError
                   ("not enough values to unpack (expected 2, got " ++ str_int (List.length l) ++ ")"))
      | _ => Raise (mk_exn ValueError "too many values to unpack (expected 2)")
      end
  | UnsizedArg t => Raise (mk_exn TypeError ("cannot unpack non-iterable " ++ t ++ " object"))
  | ScalarArrayArg => Raise (mk_exn TypeError "iteration over a 0-d array")
  end.

(** [np.mean(vec)] and [np.std(vec, ddof=1)] on the array behind
    [.values]. *)
Definition np_mean (vec : Series F) : outcome F :=
  match as_numeric vec with
  | Some xs => Return (mean xs)
  | None => Raise (mk_exn TypeError (type_error_text vec))
  end.

Definition np_std (vec : Series F) : outcome F :=
  match as_numeric vec with
  | Some xs => Return (std1 xs)
  | None => Raise (mk_exn TypeError (type_error_text vec))
  end.

(** The expression both entry points assign to [df]. *)
Definition welch_df (s1_sq : F) (n_control : nat) (s2_sq : F) (n_test : nat) : F :=
  fdiv (fsq (fadd (fdiv s1_sq (of_int n_control)) (fdiv s2_sq (of_int n_test))))
       (fadd (fdiv (fsq (fdiv s1_sq (of_int n_control))) (of_int (n_control - 1)))
             (fdiv (fsq (fdiv s2_sq (of_int n_test))) (of_int (n_test - 1)))).

(** The statements from the call of [ttest_ind] to the result mapping,
    shared word for word by core.py (lines 40-72) and welch_t_test.py
    (lines 57-87). *)
Definition calculate (control_vec test_vec : Series F) (control_value test_value : value F)
  : outcome (Results F) :=
  ' (t_statistic, p_value) <- ttest_ind control_vec test_vec ;;
  mean_control <- np_mean control_vec ;;
  mean_test <- np_mean test_vec ;;
  std_control <- np_std control_vec ;;
  std_test <- np_std test_vec ;;
  let n_control := List.length control_vec in
  let n_test := List.length test_vec in
  let s1_sq := fsq std_control in
  let s2_sq := fsq std_test in
  let df := welch_df s1_sq n_control s2_sq n_test in
  Return (mk_results t_statistic p_value df mean_control mean_test std_control std_test
            n_control n_test (fsub mean_test mean_control) control_value test_value).
End Python.

(** ** The package [custom_welch_t_test] *)

Module Library.
Section Library.
Context {F : Type} {arith : Arith F} {runtime : Runtime F}.

Definition invalid_data (message : string) : exn := mk_exn InvalidDataError message.
Definition invalid_column (message : string) : exn := mk_exn InvalidColumnError message.

(** utils.py, [validate_inputs]. *)
Definition validate_inputs (dataframe : table_arg F) (independent_var_col dependent_var_col : string)
    (control_test_values : pair_arg F) : outcome unit :=
  match dataframe with
  | NotFrame _ => Raise (invalid_data "Input must be a pandas DataFrame")
  | Frame df =>
      when empty df raise invalid_data "DataFrame is empty" ;;
      when negb (has_column independent_var_col df)
        raise invalid_column ("Column '" ++ independent_var_col ++ "' not found in dataframe") ;;
      when negb (has_column dependent_var_col df)
        raise invalid_column ("Column '" ++ dependent_var_col ++ "' not found in dataframe") ;;
      col <- getitem df independent_var_col ;;
      let distinct_values := nunique col in
      when (2 <? distinct_values)%nat
        raise invalid_data ("Independent variable column has " ++ str_int distinct_values
                            ++ " distinct values. " ++ "Only 2 are allowed for t-test.") ;;
      match control_test_values with
      | SeqArg l =>
          when negb (List.length l =? 2)%nat
            raise invalid_data
                    "control_test_values must contain exactly 2 values [control_value, test_value]" ;;
          Return tt
      | ScalarArrayArg => Raise (mk_exn TypeError "len() of unsized object")
      | SizedArg _ | UnsizedArg _ =>
          Raise (invalid_data "control_test_values must be a list, tuple, or array")
      end
  end.

(** utils.py, [extract_groups]. *)
Definition extract_groups (dataframe : table_arg F) (independent_var_col dependent_var_col : string)
    (control_test_values : pair_arg F)
  : outcome (Series F * Series F * value F * value F) :=
  ' (control_value, test_value) <- unpack2 control_test_values ;;
  indep <- subscript dataframe independent_var_col ;;
  dep <- subscript dataframe dependent_var_col ;;
  let control_data := select indep dep control_value in
  let test_data := select indep dep test_value in
  when (List.length control_data =? 0)%nat
    raise invalid_data ("No data found for control value '" ++ py_str control_value ++ "'") ;;
  when (List.length test_data =? 0)%nat
    raise invalid_data ("No data found for test value '" ++ py_str test_value ++ "'") ;;
  let control_vec := dropna control_data in
  let test_vec := dropna test_data in
  when (List.length control_vec =? 0)%nat raise invalid_data "No valid (non-NaN) data in control group" ;;
  when (List.length test_vec =? 0)%nat raise invalid_data "No valid (non-NaN) data in test group" ;;
  when (List.length control_vec <? 2)%nat raise invalid_data "Control group must have at least 2 observations" ;;
  when (List.length test_vec <? 2)%nat raise invalid_data "Test group must have at least 2 observations" ;;
  Return (control_vec, test_vec, control_value, test_value).

(** core.py, the body of the [try] statement. *)
Definition welch_t_test_body (dataframe : table_arg F) (independent_var_col dependent_var_col : string)
    (control_test_values : pair_arg F) : outcome (Results F) :=
  _ <- validate_inputs dataframe independent_var_col dependent_var_col control_test_values ;;
  ' (control_vec, test_vec, control_value, test_value) <-
    extract_groups dataframe independent_var_col dependent_var_col control_test_values ;;
  calculate control_vec test_vec control_value test_value.

(** core.py, the two [except] clauses: the first re-raises, the second
    wraps. *)
Definition handle {A} (body : outcome A) : outcome A :=
  match body with
  | Return a => Return a
  | Raise e =>
      if isinstance e InvalidColumnError || isinstance e InvalidDataError
      then Raise e
      else Raise (mk_exn WelchTTestError ("T-test calculation failed: " ++ exn_message e))
  end.

(** core.py, [welch_t_test]. *)
Definition welch_t_test (dataframe : table_arg F) (independent_var_col dependent_var_col : string)
    (control_test_values : pair_arg F) : outcome (Results F) :=
  handle (welch_t_test_body dataframe independent_var_col dependent_var_col control_test_values).
End Library.
End Library.

(** ** The script [welch_t_test.py] *)

Module Script.
Section Script.
Context {F : Type} {arith : Arith F} {runtime : Runtime F}.

(** welch_t_test.py, the body of the [try] statement; every [return] of a
    mapping is a [Return]. *)
Definition welch_t_test_body (dataframe : table_arg F) (independent_var_col dependent_var_col : string)
    (control_test_values : pair_arg F) : outcome (pydict F) :=
  cols <- attr_columns dataframe ;;
  if negb (existsb (String.eqb independent_var_col) cols)
  then Return (ErrorMapping ("Column '" ++ independent_var_col ++ "' not found in dataframe")) else
  if negb (existsb (String.eqb dependent_var_col) cols)
  then Return (ErrorMapping ("Column '" ++ dependent_var_col ++ "' not found in dataframe")) else
  col <- subscript dataframe independent_var_col ;;
  let distinct_values := nunique col in
  if (2 <? distinct_values)%nat
  then Return (ErrorMapping ("Independent variable column has " ++ str_int distinct_values
                             ++ " distinct values. Only 2 are allowed for t-test.")) else
  n <- py_len control_test_values ;;
  if negb (n =? 2)%nat
  then Return (ErrorMapping
                 "control_test_values must contain exactly 2 values [control_value, test_value]") else
  ' (control_value, test_value) <- unpack2 control_test_values ;;
  indep <- subscript dataframe independent_var_col ;;
  dep <- subscript dataframe dependent_var_col ;;
  let control_data := select indep dep control_value in
  let test_data := select indep dep test_value in
  if (List.length control_data =? 0)%nat
  then Return (ErrorMapping ("No data found for control value '" ++ py_str control_value ++ "'")) else
  if (List.length test_data =? 0)%nat
  then Return (ErrorMapping ("No data found for test value '" ++ py_str test_value ++ "'")) else
  let control_vec := dropna control_data in
  let test_vec := dropna test_data in
  if (List.length control_vec =? 0)%nat
  then Return (ErrorMapping "No valid (non-NaN) data in control group") else
  if (List.length test_vec =? 0)%nat
  then Return (ErrorMapping "No valid (non-NaN) data in test group") else
  results <- calculate control_vec test_vec control_value test_value ;;
  Return (ResultMapping results).

(** welch_t_test.py, [welch_t_test]: the [except Exception] clause returns
    a mapping too. *)
Definition welch_t_test (dataframe : table_arg F) (independent_var_col dependent_var_col : string)
    (control_test_values : pair_arg F) : outcome (pydict F) :=
  match welch_t_test_body dataframe independent_var_col dependent_var_col control_test_values with
  | Return d => Return d
  | Raise e => Return (ErrorMapping ("An error occurred: " ++ exn_message e))
  end.
End Script.
End Script.

(** ** The package on the interpreter's store *)

(** The objects a call can reach, each with its contents, by kind: the
    tables (the argument [dataframe] is a reference to one of them), the
    Series and arrays, and the boolean Series a comparison gives.  A
    reference is an index; an object is created at the end of its kind
    and is never freed. *)
Record store (F : Type) : Type := mk_store {
  tables : list (table_arg F);
  arrays : list (Series F);
  masks : list (list bool)
}.
Arguments mk_store {F} tables arrays masks.
Arguments tables {F} s.
Arguments arrays {F} s.
Arguments masks {F} s.

(** The object behind a reference. *)
Definition table_at {F} (w : store F) (a : nat) : table_arg F :=
  nth a (tables w) (NotFrame "NoneType").
Definition array_at {F} (w : store F) (s : nat) : Series F := nth s (arrays w) [].
Definition mask_at {F} (w : store F) (m : nat) : list bool := nth m (masks w) [].

(** A statement of the source as it acts on the store: an outcome and the
    store it leaves, also when it raises. *)
Definition stateful (F A : Type) : Type := store F -> outcome A * store F.

(** The elements of [l] at the positions where [mask] holds [True]. *)
Definition keep {A : Type} (mask : list bool) (l : list A) : list A :=
  map snd (filter fst (combine mask l)).

Module OnStore.
Section OnStore.
Context {F : Type} {arith : Arith F} {runtime : Runtime F}.

Definition ret {A} (a : A) : stateful F A := fun w => (Return a, w).

Definition throw {A} (e : exn) : stateful F A := fun w => (Raise e, w).

Definition bind {A B} (m : stateful F A) (k : A -> stateful F B) : stateful F B :=
  fun w =>
    match m w with
    | (Return a, w') => k a w'
    | (Raise e, w') => (Raise e, w')
    end.

(** A computation that touches no object. *)
Definition lift {A} (o : outcome A) : stateful F A := fun w => (o, w).

Declare Scope store_scope.
Notation "x <- m ;; k" := (bind m (fun x => k))
  (at level 61, m at next level, right associativity) : store_scope.
Notation "' p <- m ;; k" := (bind m (fun x => match x with p => k end))
  (at level 61, p pattern, m at next level, right associativity) : store_scope.
Notation "'when' b 'raise' e ;; k" := (if b then throw e else k)
  (at level 61, b at level 200, e at next level, right associativity) : store_scope.
Local Open Scope store_scope.

(** The creation of an object; the reference to it is returned. *)
Definition new_table (t : table_arg F) : stateful F nat :=
  fun w => (Return (List.length (tables w)), mk_store (tables w ++ [t]) (arrays w) (masks w)).
Definition new_array (s : Series F) : stateful F nat :=
  fun w => (Return (List.length (arrays w)), mk_store (tables w) (arrays w ++ [s]) (masks w)).
Definition new_mask (m : list bool) : stateful F nat :=
  fun w => (Return (List.length (masks w)), mk_store (tables w) (arrays w) (masks w ++ [m])).

(** [isinstance(dataframe, pd.DataFrame)]. *)
Definition is_DataFrame (a : nat) : stateful F bool :=
  fun w => (Return (match table_at w a with Frame _ => true | NotFrame _ => false end), w).

(** [dataframe.empty]. *)
Definition attr_empty (a : nat) : stateful F bool :=
  fun w =>
    match table_at w a with
    | Frame df => (Return (empty df), w)
    | NotFrame t => (Raise (mk_exn AttributeError ("'" ++ t ++ "' object has no attribute 'empty'")), w)
    end.

(** [name in dataframe.columns]. *)
Definition in_columns (name : string) (a : nat) : stateful F bool :=
  fun w =>
    (cols <- attr_columns (table_at w a) ;; Return (existsb (String.eqb name) cols), w)%py.

(** [dataframe[name]]: a new Series with the cells of the column. *)
Definition subscript_name (a : nat) (name : string) : stateful F nat :=
  fun w =>
    match subscript (table_at w a) name with
    | Return col => new_array col w
    | Raise e => (Raise e, w)
    end.

(** [series.nunique()]. *)
Definition series_nunique (s : nat) : stateful F nat := fun w => (Return (nunique (array_at w s)), w).

(** [series == v]: a new boolean Series. *)
Definition series_eq (s : nat) (v : value F) : stateful F nat :=
  fun w => new_mask (map (fun c => value_eqb c v) (array_at w s)) w.

(** [dataframe[mask]]: a new DataFrame with the rows where the mask holds
    [True]. *)
Definition subscript_mask (a m : nat) : stateful F nat :=
  fun w =>
    match table_at w a with
    | Frame df => new_table (Frame (map (fun c => (fst c, keep (mask_at w m) (snd c))) df)) w
    | NotFrame t => (Raise (mk_exn TypeError ("'" ++ t ++ "' object is not subscriptable")), w)
    end.

(** [len(series)], [len(array)]. *)
Definition array_len (s : nat) : stateful F nat := fun w => (Return (List.length (array_at w s)), w).

(** [series.dropna()]: a new Series. *)
Definition series_dropna (s : nat) : stateful F nat := fun w => new_array (dropna (array_at w s)) w.

(** [series.values]: the array that holds the cells of the Series. *)
Definition series_values (s : nat) : stateful F nat := ret s.

(** A function of numpy or scipy that reads one array, or two. *)
Definition on_array {A} (f : Series F -> outcome A) (s : nat) : stateful F A :=
  fun w => (f (array_at w s), w).
Definition on_arrays {A} (f : Series F -> Series F -> outcome A) (s t : nat) : stateful F A :=
  fun w => (f (array_at w s) (array_at w t), w).

(** utils.py, [validate_inputs]. *)
Definition validate_inputs (dataframe : nat) (independent_var_col dependent_var_col : string)
    (control_test_values : pair_arg F) : stateful F unit :=
  is_frame <- is_DataFrame dataframe ;;
  when negb is_frame raise Library.invalid_data "Input must be a pandas DataFrame" ;;
  is_empty <- attr_empty dataframe ;;
  when is_empty raise Library.invalid_data "DataFrame is empty" ;;
  found <- in_columns independent_var_col dataframe ;;
  when negb found
    raise Library.invalid_column ("Column '" ++ independent_var_col ++ "' not found in dataframe") ;;
  found <- in_columns dependent_var_col dataframe ;;
  when negb found
    raise Library.invalid_column ("Column '" ++ dependent_var_col ++ "' not found in dataframe") ;;
  col <- subscript_name dataframe independent_var_col ;;
  distinct_values <- series_nunique col ;;
  when (2 <? distinct_values)%nat
    raise Library.invalid_data ("Independent variable column has " ++ str_int distinct_values
                                ++ " distinct values. " ++ "Only 2 are allowed for t-test.") ;;
  match control_test_values with
  | SeqArg l =>
      when negb (List.length l =? 2)%nat
        raise Library.invalid_data
                "control_test_values must contain exactly 2 values [control_value, test_value]" ;;
      ret tt
  | ScalarArrayArg => throw (mk_exn TypeError "len() of unsized object")
  | SizedArg _ | UnsizedArg _ =>
      throw (Library.invalid_data "control_test_values must be a list, tuple, or array")
  end.

(** utils.py, [extract_groups]: the two arrays are returned by reference. *)
Definition extract_groups (dataframe : nat) (independent_var_col dependent_var_col : string)
    (control_test_values : pair_arg F) : stateful F (nat * nat * value F * value F) :=
  ' (control_value, test_value) <- lift (unpack2 control_test_values) ;;
  indep <- subscript_name dataframe independent_var_col ;;
  mask <- series_eq indep control_value ;;
  rows <- subscript_mask dataframe mask ;;
  control_data <- subscript_name rows dependent_var_col ;;
  indep <- subscript_name dataframe independent_var_col ;;
  mask <- series_eq indep test_value ;;
  rows <- subscript_mask dataframe mask ;;
  test_data <- subscript_name rows dependent_var_col ;;
  n <- array_len control_data ;;
  when (n =? 0)%nat
    raise Library.invalid_data ("No data found for control value '" ++ py_str control_value ++ "'") ;;
  n <- array_len test_data ;;
  when (n =? 0)%nat
    raise Library.invalid_data ("No data found for test value '" ++ py_str test_value ++ "'") ;;
  dropped <- series_dropna control_data ;;
  control_vec <- series_values dropped ;;
  dropped <- series_dropna test_data ;;
  test_vec <- series_values dropped ;;
  n <- array_len control_vec ;;
  when (n =? 0)%nat raise Library.invalid_data "No valid (non-NaN) data in control group" ;;
  n <- array_len test_vec ;;
  when (n =? 0)%nat raise Library.invalid_data "No valid (non-NaN) data in test group" ;;
  n <- array_len control_vec ;;
  when (n <? 2)%nat raise Library.invalid_data "Control group must have at least 2 observations" ;;
  n <- array_len test_vec ;;
  when (n <? 2)%nat raise Library.invalid_data "Test group must have at least 2 observations" ;;
  ret (control_vec, test_vec, control_value, test_value).

(** core.py, the body of the [try] statement (lines 32-72). *)
Definition welch_t_test_body (dataframe : nat) (independent_var_col dependent_var_col : string)
    (control_test_values : pair_arg F) : stateful F (Results F) :=
  _ <- validate_inputs dataframe independent_var_col dependent_var_col control_test_values ;;
  ' (control_vec, test_vec, control_value, test_value) <-
    extract_groups dataframe independent_var_col dependent_var_col control_test_values ;;
  ' (t_statistic, p_value) <- on_arrays ttest_ind control_vec test_vec ;;
  mean_control <- on_array np_mean control_vec ;;
  mean_test <- on_array np_mean test_vec ;;
  std_control <- on_array np_std control_vec ;;
  std_test <- on_array np_std test_vec ;;
  n_control <- array_len control_vec ;;
  n_test <- array_len test_vec ;;
  let s1_sq := fsq std_control in
  let s2_sq := fsq std_test in
  let df := welch_df s1_sq n_control s2_sq n_test in
  ret (mk_results t_statistic p_value df mean_control mean_test std_control std_test
         n_control n_test (fsub mean_test mean_control) control_value test_value).

(** core.py, [welch_t_test]: the [except] clauses act on the exception
    and leave the store as the body left it. *)
Definition welch_t_test (dataframe : nat) (independent_var_col dependent_var_col : string)
    (control_test_values : pair_arg F) : stateful F (Results F) :=
  fun w =>
    let (result, w') :=
      welch_t_test_body dataframe independent_var_col dependent_var_col control_test_values w in
    (Library.handle result, w').
End OnStore.
End OnStore.

(** [w'] holds every object of [w], unchanged, and possibly new ones. *)
Definition extends {F} (w w' : store F) : Prop :=
  exists t s m,
    tables w' = tables w ++ t /\ arrays w' = arrays w ++ s /\ masks w' = masks w ++ m.

(** ** The numeric primitive *)

Section Scipy.
Context {F : Type} {arith : Arith F}.

(** [scipy.stats.ttest_ind(a, b, equal_var=False)] on two float64 arrays,
    as scipy computes it: the variances over [n - 1], the Welch denominator
    and degrees of freedom (set to 1 where undefined, for the p-value
    only), and the statistic [(mean(a) - mean(b)) / denom]: first argument
    minus second. *)
Definition welch_statistic (xs ys : list F) : F * pvalue F :=
  let vn1 := fdiv (var1 xs) (of_int (List.length xs)) in
  let vn2 := fdiv (var1 ys) (of_int (List.length ys)) in
  let df := fdiv (fsq (fadd vn1 vn2))
                 (fadd (fdiv (fsq vn1) (of_int (List.length xs - 1)))
                       (fdiv (fsq vn2) (of_int (List.length ys - 1)))) in
  let df := if fisnan df then of_int 1 else df in
  let denom := fsqrt (fadd vn1 vn2) in
  let d := fsub (mean xs) (mean ys) in
  let t := fdiv d denom in
  (t, TwoSidedT t df).

(** The primitive on whatever [.values] holds: a non-numeric array makes
    the reductions inside raise a TypeError. *)
Definition scipy_ttest_ind (error_text : Series F -> string) (a b : Series F)
  : outcome (F * pvalue F) :=
  match as_numeric a, as_numeric b with
  | Some xs, Some ys => Return (welch_statistic xs ys)
  | None, _ => Raise (mk_exn TypeError (error_text a))
  | _, None => Raise (mk_exn TypeError (error_text b))
  end.

(** The runtime with scipy's primitive. *)
Definition scipy_runtime (str_of_num : F -> string) (error_text : Series F -> string) : Runtime F :=
  {| str_num := str_of_num;
     type_error_text := error_text;
     ttest_ind := scipy_ttest_ind error_text |}.
End Scipy.

(** ** Vocabulary of the statements *)

Section Vocabulary.
Context {F : Type} {arith : Arith F}.

(** The observations of the group identified by [v], after the NaN-drop:
    what [extract_groups] calls [control_vec] and [test_vec]. *)
Definition group (df : DataFrame F) (independent_var_col dependent_var_col : string) (v : value F)
  : Series F :=
  match getitem df independent_var_col, getitem df dependent_var_col with
  | Return indep, Return dep => dropna (select indep dep v)
  | _, _ => []
  end.

(** A table is rectangular: its columns have one length. *)
Definition rectangular (df : DataFrame F) : bool :=
  match df with
  | [] => true
  | (_, s) :: rest => forallb (fun col => Nat.eqb (List.length (snd col)) (List.length s)) rest
  end.

(** The Welch-Satterthwaite formula as the specification writes it,
    [(s1²/n1 + s2²/n2)² / ((s1²/n1)²/(n1-1) + (s2²/n2)²/(n2-1))], from the
    sample standard deviations and the counts. *)
Definition welch_satterthwaite (s1 : F) (n1 : nat) (s2 : F) (n2 : nat) : F :=
  let q1 := fdiv (fsq s1) (of_int n1) in
  let q2 := fdiv (fsq s2) (of_int n2) in
  fdiv (fsq (fadd q1 q2))
       (fadd (fdiv (fsq q1) (of_int (n1 - 1))) (fdiv (fsq q2) (of_int (n2 - 1)))).

(** A two-column table with the column "group" holding the labels
    "control" and "test" and the column "value" holding the given cells. *)
Definition two_groups (control test : Series F) : DataFrame F :=
  [("group", map (fun _ => VStr "control") control ++ map (fun _ => VStr "test") test);
   ("value", control ++ test)].

(** The group-value pair [["control", "test"]]. *)
Definition control_test : pair_arg F := SeqArg [VStr "control"; VStr "test"].

(** The values a sized argument holds, in order. *)
Definition elements (ctv : pair_arg F) : list (value F) :=
  match ctv with
  | SeqArg l | SizedArg l => l
  | UnsizedArg _ | ScalarArrayArg => []
  end.
End Vocabulary.

Section Calls.
Context {F : Type} {arith : Arith F} {runtime : Runtime F}.

(** A successful call of the entry point, in either of its two variants,
    with result mapping [r]. *)
Definition succeeds (dataframe : table_arg F) (independent_var_col dependent_var_col : string)
    (control_test_values : pair_arg F) (r : Results F) : Prop :=
  Library.welch_t_test dataframe independent_var_col dependent_var_col control_test_values
  = Return r \/
  Script.welch_t_test dataframe independent_var_col dependent_var_col control_test_values
  = Return (ResultMapping r).
End Calls.

(** The runtimes of the worked examples.  Their groups are labelled by
    strings, so [str] of a float is never asked for; the TypeError text is
    the one Python gives for adding a str to a float. *)
Definition example_error_text {F} (_ : Series F) : string :=
  "unsupported operand type(s) for +: 'float' and 'str'".

Definition float_runtime : Runtime float := scipy_runtime (fun _ => "nan") example_error_text.

Definition exact_runtime : Runtime R := scipy_runtime (fun _ => "nan") example_error_text.

(** The library's entry point on a two-group table, in binary64 and in
    exact arithmetic. *)
Definition run_float (control test : Series float) : outcome (Results float) :=
  @Library.welch_t_test float binary64 float_runtime
    (Frame (two_groups control test)) "group" "value" control_test.

Definition run_exact (control test : Series R) : outcome (Results R) :=
  @Library.welch_t_test R exact exact_runtime
    (Frame (two_groups control test)) "group" "value" control_test.

(** The permissive variant on a two-group table, in binary64. *)
Definition script_float (control test : Series float) : outcome (pydict float) :=
  @Script.welch_t_test float binary64 float_runtime
    (Frame (two_groups control test)) "group" "value" control_test.

(** ** Worked tables *)

Set Warnings "-inexact-float".

(** Scenario 3 of the specification. *)
Definition scenario3_control : Series float :=
  [VNum 12.5%float; VNum 13.2%float; VNum 11.8%float; VNum 14.1%float].
Definition scenario3_test : Series float :=
  [VNum 15.2%float; VNum 14.8%float; VNum 16.1%float; VNum 15.7%float].

(** A store that holds the table of Scenario 3 and nothing else. *)
Definition scenario3_store : store float :=
  mk_store [Frame (two_groups scenario3_control scenario3_test)] [] [].

(** Two groups on which every operation of the calculation is exact in
    binary64: means 0 and 10, sample variances 4 and 12. *)
Definition spread_control {F} {arith : Arith F} : Series F :=
  [VNum (fsub fzero (of_int 1)); VNum (fsub fzero (of_int 1)); VNum (fsub fzero (of_int 1));
   VNum (of_int 3)].
Definition spread_test {F} {arith : Arith F} : Series F :=
  [VNum (of_int 7); VNum (of_int 7); VNum (of_int 13); VNum (of_int 13)].

(** A group of [n] observations, all equal to the integer [k]. *)
Definition constant {F} {arith : Arith F} (n k : nat) : Series F := repeat (VNum (of_int k)) n.

(** Two groups of equal, non-zero variance on which the rounding of the
    degrees of freedom goes up. *)
Definition rounding_control : Series float := [VNum 5.0%float; VNum 5.4%float].
Definition rounding_test : Series float := [VNum 10.3%float; VNum 10.7%float].

(** A control group with one observation and one NaN. *)
Definition short_control : Series float := [VNum 1%float; VNum nan].

(** A control group whose dependent cells are not all numbers. *)
Definition mixed_control : Series float := [VNum 1%float; VStr "x"].

(** A table whose grouping column has the three values "a", "b", "c". *)
Definition three_labels : DataFrame float :=
  [("group", [VStr "a"; VStr "a"; VStr "b"; VStr "b"; VStr "c"; VStr "c"]);
   ("value", [VNum 1%float; VNum 2%float; VNum 3%float; VNum 4%float; VNum 5%float; VNum 6%float])].

(** ** utils.py, [format_results] *)

(** A value held by a dict: a float64, the p-value, the [int] that [len]
    returned for an array (below [2^63]), an [int] of any size, a [bool],
    a [str] or [None]. *)
Inductive obj (F : Type) : Type :=
| OFloat (x : F)
| OProb (p : pvalue F)
| OSize (n : nat)
| OInt (n : Z)
| OBool (b : bool)
| OStr (s : string)
| ONone.
Arguments OFloat {F} x.
Arguments OProb {F} p.
Arguments OSize {F} n.
Arguments OInt {F} n.
Arguments OBool {F} b.
Arguments OStr {F} s.
Arguments ONone {F}.

(** A dict with string keys, as a list of items; a key is looked up from
    the front. *)
Definition dict (F : Type) : Type := list (string * obj F).

(** What a caller may pass for [results]: a dict, or an object of another
    type. *)
Inductive results_arg (F : Type) : Type :=
| DictArg (d : dict F)
| NotDict (type_name : string).
Arguments DictArg {F} d.
Arguments NotDict {F} type_name.

(** What Python gives and the source does not define: a float in fixed
    notation with a number of digits ([format(x, ".4f")]); the same and
    [str] for the p-value; [float(n)] for an [int], the nearest float64, or
    nothing where the int is too large and Python raises OverflowError;
    and the interpreter's limit on the digits of an int-to-str conversion
    ([sys.get_int_max_str_digits()]: 0 for no limit, as before Python 3.11,
    otherwise 640 or more) with the text of the ValueError beyond it. *)
Class Formatting (F : Type) : Type := {
  format_fixed : nat -> F -> string;
  format_prob : nat -> pvalue F -> string;
  str_prob : pvalue F -> string;
  float_of_int : Z -> option F;
  int_max_str_digits : nat;
  int_limit_text : string
}.

(** The line separator of ["\n".join]. *)
Definition newline : string := String (ascii_of_nat 10) EmptyString.

(** [sep.join(lines)]. *)
Fixpoint join (sep : string) (lines : list string) : string :=
  match lines with
  | [] => ""
  | [l] => l
  | l :: rest => l ++ sep ++ join sep rest
  end.

(** [s * n]. *)
Fixpoint str_repeat (s : string) (n : nat) : string :=
  match n with
  | 0 => ""
  | S n' => s ++ str_repeat s n'
  end.

(** Decimal rendering of a Python [int] that may be negative. *)
Definition str_Z (n : Z) : string := NilZero.string_of_int (Z.to_int n).

(** The eight keys [format_results] renders with a format specification,
    in the order it reads them. *)
Definition numeric_keys : list string :=
  ["t_statistic"; "p_value"; "degrees_of_freedom"; "mean_difference";
   "mean_control"; "std_control"; "mean_test"; "std_test"].

(** The four keys it renders without one. *)
Definition plain_keys : list string := ["control_value"; "n_control"; "test_value"; "n_test"].

Section Formatting.
Context {F : Type} {arith : Arith F} {runtime : Runtime F} {formatting : Formatting F}.

(** [d.get(key, default)]. *)
Fixpoint dict_get (d : dict F) (key : string) (default : obj F) : obj F :=
  match d with
  | [] => default
  | (k, v) :: rest => if String.eqb key k then v else dict_get rest key default
  end.

(** Whether [str(n)] stays within the interpreter's limit on digits. *)
Definition within_digit_limit (n : Z) : bool :=
  (int_max_str_digits =? 0)%nat
  || (String.length (str_Z (Z.abs n)) <=? int_max_str_digits)%nat.

(** [str(o)], as an f-string renders a value without a format
    specification; an [int] with more digits than the interpreter's limit
    raises. *)
Definition obj_str (o : obj F) : outcome string :=
  match o with
  | OFloat x => Return (str_num x)
  | OProb p => Return (str_prob p)
  | OSize n => Return (str_int n)
  | OInt n => if within_digit_limit n then Return (str_Z n)
              else Raise (mk_exn ValueError int_limit_text)
  | OBool b => Return (if b then "True" else "False")
  | OStr s => Return s
  | ONone => Return "None"
  end.

(** [format(o, ".<digits>f")]: a float is rendered; an [int] is converted
    to a float first, which rounds it above [2^53] and raises
    OverflowError where no float64 is near enough, and then rendered as
    that float; a [bool] is the int 0 or 1; a [str] and [None] refuse the
    format code. *)
Definition format_f (digits : nat) (o : obj F) : outcome string :=
  match o with
  | OFloat x => Return (format_fixed digits x)
  | OProb p => Return (format_prob digits p)
  | OSize n => Return (format_fixed digits (of_int n))
  | OInt n =>
      match float_of_int n with
      | Some x => Return (format_fixed digits x)
      | None => Raise (mk_exn OverflowError "int too large to convert to float")
      end
  | OBool b => Return (format_fixed digits (of_int (Nat.b2n b)))
  | OStr _ => Raise (mk_exn ValueError "Unknown format code 'f' for object of type 'str'")
  | ONone => Raise (mk_exn TypeError "unsupported format string passed to NoneType.__format__")
  end.

(** A number the format code ["f"] accepts: a float, a [bool], or an [int]
    that has a float64. *)
Definition formattable (o : obj F) : bool :=
  match o with
  | OFloat _ | OProb _ | OSize _ | OBool _ => true
  | OInt n => match float_of_int n with Some _ => true | None => false end
  | OStr _ | ONone => false
  end.

(** A value [str] renders: any but an [int] beyond the limit on digits. *)
Definition printable (o : obj F) : bool :=
  match o with
  | OInt n => within_digit_limit n
  | _ => true
  end.

(** utils.py, [format_results]: the f-strings are evaluated in the order
    of the [append] calls. *)
Definition format_results (results : results_arg F) : outcome string :=
  match results with
  | NotDict _ => Return "Invalid results format"
  | DictArg d =>
      let get key := dict_get d key (OStr "N/A") in
      t_statistic <- format_f 4 (get "t_statistic") ;;
      p_value <- format_f 4 (get "p_value") ;;
      degrees_of_freedom <- format_f 2 (get "degrees_of_freedom") ;;
      mean_difference <- format_f 4 (get "mean_difference") ;;
      control_value <- obj_str (get "control_value") ;;
      mean_control <- format_f 4 (get "mean_control") ;;
      std_control <- format_f 4 (get "std_control") ;;
      n_control <- obj_str (get "n_control") ;;
      test_value <- obj_str (get "test_value") ;;
      mean_test <- format_f 4 (get "mean_test") ;;
      std_test <- format_f 4 (get "std_test") ;;
      n_test <- obj_str (get "n_test") ;;
      Return (join newline
                ["Welch's 2-sided t-test Results:";
                 str_repeat "=" 35;
                 ("t-statistic: " ++ t_statistic)%string;
                 ("p-value: " ++ p_value)%string;
                 ("Degrees of freedom: " ++ degrees_of_freedom)%string;
                 ("Mean difference: " ++ mean_difference)%string;
                 "";
                 "Group Statistics:";
                 ("Control (" ++ control_value ++ "):")%string;
                 ("  Mean: " ++ mean_control)%string;
                 ("  Std: " ++ std_control)%string;
                 ("  N: " ++ n_control)%string;
                 ("Test (" ++ test_value ++ "):")%string;
                 ("  Mean: " ++ mean_test)%string;
                 ("  Std: " ++ std_test)%string;
                 ("  N: " ++ n_test)%string])
  end.

(** A group-identifying value as a dict value. *)
Definition obj_of_value (v : value F) : obj F :=
  match v with
  | VNum x => OFloat x
  | VStr s => OStr s
  | VNone => ONone
  end.

(** The result mapping as the dict literal of core.py (lines 57-70) and
    welch_t_test.py (lines 72-85) builds it. *)
Definition as_dict (r : Results F) : dict F :=
  [("t_statistic", OFloat (t_statistic r));
   ("p_value", OProb (p_value r));
   ("degrees_of_freedom", OFloat (degrees_of_freedom r));
   ("mean_control", OFloat (mean_control r));
   ("mean_test", OFloat (mean_test r));
   ("std_control", OFloat (std_control r));
   ("std_test", OFloat (std_test r));
   ("n_control", OSize (n_control r));
   ("n_test", OSize (n_test r));
   ("mean_difference", OFloat (mean_difference r));
   ("control_value", obj_of_value (control_value r));
   ("test_value", obj_of_value (test_value r))].

(** The dict the permissive variant returns. *)
Definition mapping_dict (d : pydict F) : dict F :=
  match d with
  | ResultMapping r => as_dict r
  | ErrorMapping message => [("error", OStr message)]
  end.
End Formatting.

(** ** More vocabulary *)

(** [l1] is [l2] with some elements left out, the order kept. *)
Inductive subsequence {A : Type} : list A -> list A -> Prop :=
| subsequence_nil : forall l, subsequence [] l
| subsequence_skip : forall x l1 l2, subsequence l1 l2 -> subsequence l1 (x :: l2)
| subsequence_take : forall x l1 l2, subsequence l1 l2 -> subsequence (x :: l1) (x :: l2).

(** A cell a float64 column may hold: a number or a missing value. *)
Definition numeric_or_missing {F} (v : value F) : bool :=
  match v with
  | VNum _ | VNone => true
  | VStr _ => false
  end.

(** The assumption on the numeric primitive under which the calculation
    cannot fail: it returns on every two arrays of two numbers or more. *)
Definition primitive_returns_on_numbers {F} {arith : Arith F} {runtime : Runtime F} : Prop :=
  forall a b : Series F,
    as_numeric a <> None -> as_numeric b <> None ->
    2 <= List.length a -> 2 <= List.length b ->
    exists r, ttest_ind a b = Return r.

(** The group-value pair [["test", "control"]]: the labels swapped. *)
Definition test_control {F} : pair_arg F := SeqArg [VStr "test"; VStr "control"].

(** The group-value pair [["x", "y"]], labels no table below holds. *)
Definition absent_pair {F} : pair_arg F := SeqArg [VStr "x"; VStr "y"].

(** * Properties *)

(** ** Tables *)

Section Frames.
Context {F : Type} {arith : Arith F}.

Lemma getitem_has_column (df : DataFrame F) (name : string) (s : Series F) :
  getitem df name = Return s -> has_column name df = true.
Proof.
  unfold has_column, columns.
  induction df as [| [c col] rest IH]; simpl; [discriminate |].
  destruct (String.eqb name c); [reflexivity | exact IH].
Qed.

Lemma has_column_getitem (df : DataFrame F) (name : string) :
  has_column name df = true -> exists s, getitem df name = Return s.
Proof.
  unfold has_column, columns.
  induction df as [| [c col] rest IH]; simpl; [discriminate |].
  destruct (String.eqb name c); [intros _; now exists col | exact IH].
Qed.

(** In a rectangular table every column is as long as the first. *)
Lemma getitem_length (df : DataFrame F) (name : string) (s : Series F) :
  rectangular df = true -> getitem df name = Return s ->
  match df with [] => False | (_, s0) :: _ => List.length s = List.length s0 end.
Proof.
  destruct df as [| [c col] rest]; simpl; [discriminate |].
  intros Hrect. destruct (String.eqb name c).
  - intros [= ->]. reflexivity.
  - revert Hrect. induction rest as [| [c' col'] rest IH]; simpl; [discriminate |].
    intros Hrect. apply andb_prop in Hrect as [Hlen Hrect].
    destruct (String.eqb name c').
    + intros [= ->]. now apply Nat.eqb_eq.
    + now apply IH.
Qed.

Lemma nonempty_column_frame (df : DataFrame F) (name : string) (s : Series F) :
  rectangular df = true -> getitem df name = Return s -> s <> [] -> empty df = false.
Proof.
  intros Hrect Hget Hs. pose proof (getitem_length df name s Hrect Hget) as Hlen.
  destruct df as [| [c col] rest]; [contradiction |]. simpl.
  apply Nat.eqb_neq. rewrite <- Hlen. destruct s; [congruence | simpl; lia].
Qed.

Lemma as_numeric_length (s : Series F) (xs : list F) :
  as_numeric s = Some xs -> List.length xs = List.length s.
Proof.
  revert xs. induction s as [| v s IH]; simpl; intros xs.
  - intros [= <-]. reflexivity.
  - destruct v; try discriminate. destruct (as_numeric s) as [ys |]; simpl; [| discriminate].
    intros [= <-]. simpl. f_equal. now apply IH.
Qed.

(** The cells selected for a group are cells of the dependent column, one
    per row at most. *)
Lemma select_length (indep dep : Series F) (v : value F) :
  List.length (select indep dep v) <= List.length dep.
Proof.
  unfold select. rewrite length_map.
  etransitivity; [apply filter_length_le |].
  rewrite length_combine. apply Nat.le_min_r.
Qed.

Lemma dropna_length (s : Series F) : List.length (dropna s) <= List.length s.
Proof. apply filter_length_le. Qed.

(** A group with an observation has rows in the table. *)
Lemma group_nonempty (df : DataFrame F) (iv dv : string) (v : value F) :
  group df iv dv v <> [] ->
  exists indep dep,
    getitem df iv = Return indep /\ getitem df dv = Return dep /\
    group df iv dv v = dropna (select indep dep v) /\ select indep dep v <> [] /\ dep <> [].
Proof.
  unfold group.
  destruct (getitem df iv) as [indep | e]; [| congruence].
  destruct (getitem df dv) as [dep | e]; [| congruence].
  intros Hne. exists indep, dep. repeat split; trivial.
  - intros Hsel. rewrite Hsel in Hne. now apply Hne.
  - intros ->. apply Hne. unfold select. rewrite combine_nil. reflexivity.
Qed.
End Frames.

(** ** Exceptions *)

Lemma invalid_column_in_taxonomy (e : exn) :
  isinstance e InvalidColumnError = true -> in_taxonomy e = true.
Proof. destruct e as [[] m]; now cbn. Qed.

Lemma invalid_data_in_taxonomy (e : exn) :
  isinstance e InvalidDataError = true -> in_taxonomy e = true.
Proof. destruct e as [[] m]; now cbn. Qed.

(** ** The entry points, step by step *)

Section Entry.
Context {F : Type} {arith : Arith F} {runtime : Runtime F}.

(** What a successful [calculate] has computed. *)
Lemma calculate_Return (control_vec test_vec : Series F) (cv tv : value F) (r : Results F) :
  calculate control_vec test_vec cv tv = Return r ->
  exists t p xs ys,
    ttest_ind control_vec test_vec = Return (t, p) /\
    as_numeric control_vec = Some xs /\ as_numeric test_vec = Some ys /\
    r = mk_results t p
          (welch_df (fsq (std1 xs)) (List.length control_vec) (fsq (std1 ys)) (List.length test_vec))
          (mean xs) (mean ys) (std1 xs) (std1 ys)
          (List.length control_vec) (List.length test_vec)
          (fsub (mean ys) (mean xs)) cv tv.
Proof.
  unfold calculate, np_mean, np_std.
  destruct (ttest_ind control_vec test_vec) as [[t p] | e]; simpl; [| discriminate].
  destruct (as_numeric control_vec) as [xs |]; simpl; [| discriminate].
  destruct (as_numeric test_vec) as [ys |]; simpl; [| discriminate].
  intros [= <-]. now exists t, p, xs, ys.
Qed.

Lemma handle_Return {A} (body : outcome A) (a : A) :
  Library.handle body = Return a -> body = Return a.
Proof.
  destruct body as [a' | e]; simpl; [congruence |].
  destruct (isinstance e InvalidColumnError || isinstance e InvalidDataError); discriminate.
Qed.

(** An [InvalidDataError] passes the handler as it is. *)
Lemma handle_invalid_data {A} (message : string) :
  Library.handle (A := A) (Raise (Library.invalid_data message))
  = Raise (Library.invalid_data message).
Proof. reflexivity. Qed.

(** What [validate_inputs] has checked when it returns. *)
Lemma validate_inputs_Return (dataframe : table_arg F) (iv dv : string) (ctv : pair_arg F) :
  Library.validate_inputs dataframe iv dv ctv = Return tt ->
  exists df col cv tv,
    dataframe = Frame df /\ ctv = SeqArg [cv; tv] /\
    empty df = false /\ getitem df iv = Return col /\ has_column dv df = true /\
    nunique col <= 2.
Proof.
  unfold Library.validate_inputs.
  destruct dataframe as [df | t]; [| discriminate].
  destruct (empty df) eqn:Hempty; [discriminate |].
  destruct (has_column iv df) eqn:Hiv; simpl; [| discriminate].
  destruct (has_column dv df) eqn:Hdv; simpl; [| discriminate].
  destruct (getitem df iv) as [col | e] eqn:Hcol; simpl; [| discriminate].
  destruct (2 <? nunique col)%nat eqn:Hn; [discriminate |].
  destruct ctv as [l | l | t |]; try discriminate.
  destruct (List.length l =? 2)%nat eqn:Hl; simpl; [| discriminate].
  intros _. apply Nat.eqb_eq in Hl. apply Nat.ltb_ge in Hn.
  destruct l as [| cv [| tv [| ? ?]]]; try discriminate.
  exists df, col, cv, tv. repeat split; assumption.
Qed.

(** A table with both columns and a pair of group values passes the
    validation or is refused as invalid data. *)
Lemma validate_inputs_pair (df : DataFrame F) (iv dv : string) (cv tv : value F)
    (indep dep : Series F) :
  getitem df iv = Return indep -> getitem df dv = Return dep ->
  Library.validate_inputs (Frame df) iv dv (SeqArg [cv; tv]) = Return tt \/
  exists message,
    Library.validate_inputs (Frame df) iv dv (SeqArg [cv; tv])
    = Raise (Library.invalid_data message).
Proof.
  intros Hiv Hdv. unfold Library.validate_inputs.
  destruct (empty df); [right; eauto |].
  rewrite (getitem_has_column _ _ _ Hiv), (getitem_has_column _ _ _ Hdv), Hiv. simpl.
  destruct (2 <? nunique indep)%nat; [right; eauto | left; reflexivity].
Qed.

(** What [extract_groups] has checked when it returns. *)
Lemma extract_groups_Return (df : DataFrame F) (iv dv : string) (cv tv : value F)
    (c t : Series F) (cv' tv' : value F) :
  Library.extract_groups (Frame df) iv dv (SeqArg [cv; tv]) = Return (c, t, cv', tv') ->
  c = group df iv dv cv /\ t = group df iv dv tv /\ cv' = cv /\ tv' = tv /\
  2 <= List.length c /\ 2 <= List.length t.
Proof.
  unfold Library.extract_groups, group. simpl.
  destruct (getitem df iv) as [indep | e]; simpl; [| discriminate].
  destruct (getitem df dv) as [dep | e]; simpl; [| discriminate].
  destruct (List.length (select indep dep cv) =? 0)%nat; [discriminate |].
  destruct (List.length (select indep dep tv) =? 0)%nat; [discriminate |].
  destruct (List.length (dropna (select indep dep cv)) =? 0)%nat; [discriminate |].
  destruct (List.length (dropna (select indep dep tv)) =? 0)%nat; [discriminate |].
  destruct (List.length (dropna (select indep dep cv)) <? 2)%nat eqn:Hc; [discriminate |].
  destruct (List.length (dropna (select indep dep tv)) <? 2)%nat eqn:Ht; [discriminate |].
  intros [= <- <- <- <-]. apply Nat.ltb_ge in Hc, Ht. repeat split; assumption.
Qed.

(** What a successful call of the library's entry point went through. *)
Lemma welch_t_test_Return (dataframe : table_arg F) (iv dv : string) (ctv : pair_arg F)
    (r : Results F) :
  Library.welch_t_test dataframe iv dv ctv = Return r ->
  exists df cv tv,
    dataframe = Frame df /\ ctv = SeqArg [cv; tv] /\
    Library.validate_inputs dataframe iv dv ctv = Return tt /\
    2 <= List.length (group df iv dv cv) /\ 2 <= List.length (group df iv dv tv) /\
    calculate (group df iv dv cv) (group df iv dv tv) cv tv = Return r.
Proof.
  unfold Library.welch_t_test. intros Hr. apply handle_Return in Hr.
  unfold Library.welch_t_test_body in Hr.
  destruct (Library.validate_inputs dataframe iv dv ctv) as [[] | e] eqn:Hval; simpl in Hr;
    [| discriminate].
  destruct (validate_inputs_Return _ _ _ _ Hval) as (df & col & cv & tv & -> & -> & _).
  destruct (Library.extract_groups (Frame df) iv dv (SeqArg [cv; tv]))
    as [[[[c t] cv'] tv'] | e] eqn:Hext; simpl in Hr; [| discriminate].
  apply extract_groups_Return in Hext as (-> & -> & -> & -> & Hc & Ht).
  exists df, cv, tv. repeat split; assumption.
Qed.

(** The fields of a result, in terms of the two groups. *)
Lemma welch_t_test_fields (dataframe : table_arg F) (iv dv : string) (ctv : pair_arg F)
    (r : Results F) :
  Library.welch_t_test dataframe iv dv ctv = Return r ->
  exists df cv tv xs ys t p,
    dataframe = Frame df /\ ctv = SeqArg [cv; tv] /\
    as_numeric (group df iv dv cv) = Some xs /\ as_numeric (group df iv dv tv) = Some ys /\
    2 <= List.length xs /\ 2 <= List.length ys /\
    ttest_ind (group df iv dv cv) (group df iv dv tv) = Return (t, p) /\
    r = mk_results t p
          (welch_df (fsq (std1 xs)) (List.length xs) (fsq (std1 ys)) (List.length ys))
          (mean xs) (mean ys) (std1 xs) (std1 ys) (List.length xs) (List.length ys)
          (fsub (mean ys) (mean xs)) cv tv.
Proof.
  intros Hr. apply welch_t_test_Return in Hr as (df & cv & tv & -> & -> & _ & Hc & Ht & Hcalc).
  apply calculate_Return in Hcalc as (t & p & xs & ys & Htt & Hxs & Hys & ->).
  pose proof (as_numeric_length _ _ Hxs) as Lx. pose proof (as_numeric_length _ _ Hys) as Ly.
  exists df, cv, tv, xs, ys, t, p. rewrite Lx, Ly. repeat split; trivial.
Qed.
(** What a successful call of the permissive variant went through. *)
Lemma script_welch_t_test_Return (dataframe : table_arg F) (iv dv : string) (ctv : pair_arg F)
    (r : Results F) :
  Script.welch_t_test dataframe iv dv ctv = Return (ResultMapping r) ->
  exists df cv tv,
    dataframe = Frame df /\ elements ctv = [cv; tv] /\
    1 <= List.length (group df iv dv cv) /\ 1 <= List.length (group df iv dv tv) /\
    calculate (group df iv dv cv) (group df iv dv tv) cv tv = Return r.
Proof.
  unfold Script.welch_t_test.
  destruct (Script.welch_t_test_body dataframe iv dv ctv) as [[r' | m] | e] eqn:Hbody;
    try discriminate.
  intros [= ->]. revert Hbody. unfold Script.welch_t_test_body.
  destruct dataframe as [df | t]; [| discriminate]. simpl attr_columns. simpl bind.
  destruct (existsb (String.eqb iv) (columns df)); [| discriminate].
  destruct (existsb (String.eqb dv) (columns df)); [| discriminate].
  simpl negb. cbv iota. simpl subscript.
  destruct (getitem df iv) as [indep | e] eqn:Hiv; [| discriminate]. simpl bind.
  destruct (2 <? nunique indep)%nat; [discriminate |].
  assert (Hpair : forall l : list (value F),
             negb (List.length l =? 2)%nat = false -> exists cv tv, l = [cv; tv]).
  { intros [| cv [| tv [| ? ?]]]; try discriminate. eauto. }
  destruct ctv as [l | l | t |]; simpl py_len; simpl bind; [| | discriminate | discriminate];
    (destruct (negb (List.length l =? 2)%nat) eqn:Hlen; [discriminate |];
     destruct (Hpair l Hlen) as (cv & tv & ->);
     simpl unpack2; simpl bind;
     destruct (getitem df dv) as [dep | e] eqn:Hdv; [| discriminate]; simpl bind;
     destruct (List.length (select indep dep cv) =? 0)%nat; [discriminate |];
     destruct (List.length (select indep dep tv) =? 0)%nat; [discriminate |];
     destruct (List.length (dropna (select indep dep cv)) =? 0)%nat eqn:Hc; [discriminate |];
     destruct (List.length (dropna (select indep dep tv)) =? 0)%nat eqn:Ht; [discriminate |];
     destruct (calculate (dropna (select indep dep cv)) (dropna (select indep dep tv)) cv tv)
       as [results | e] eqn:Hcalc; [| discriminate];
     intros [= ->]; apply Nat.eqb_neq in Hc, Ht;
     exists df, cv, tv; unfold group; rewrite Hiv, Hdv; repeat split; trivial; lia).
Qed.

(** The fields of the result of a successful call, of either variant, in
    terms of the two groups. *)
Lemma succeeds_fields (dataframe : table_arg F) (iv dv : string) (ctv : pair_arg F)
    (r : Results F) :
  succeeds dataframe iv dv ctv r ->
  exists df cv tv xs ys t p,
    dataframe = Frame df /\ elements ctv = [cv; tv] /\
    as_numeric (group df iv dv cv) = Some xs /\ as_numeric (group df iv dv tv) = Some ys /\
    1 <= List.length xs /\ 1 <= List.length ys /\
    ttest_ind (group df iv dv cv) (group df iv dv tv) = Return (t, p) /\
    r = mk_results t p
          (welch_df (fsq (std1 xs)) (List.length xs) (fsq (std1 ys)) (List.length ys))
          (mean xs) (mean ys) (std1 xs) (std1 ys) (List.length xs) (List.length ys)
          (fsub (mean ys) (mean xs)) cv tv.
Proof.
  intros [Hr | Hr].
  - apply welch_t_test_fields in Hr
      as (df & cv & tv & xs & ys & t & p & -> & -> & Hxs & Hys & Lx & Ly & Htt & ->).
    exists df, cv, tv, xs, ys, t, p. repeat split; trivial; lia.
  - apply script_welch_t_test_Return in Hr as (df & cv & tv & -> & Hctv & Hc & Ht & Hcalc).
    apply calculate_Return in Hcalc as (t & p & xs & ys & Htt & Hxs & Hys & ->).
    pose proof (as_numeric_length _ _ Hxs) as Lx. pose proof (as_numeric_length _ _ Hys) as Ly.
    exists df, cv, tv, xs, ys, t, p. rewrite Lx, Ly. repeat split; trivial.
Qed.

(** The library's entry point succeeds on groups of two observations or
    more only. *)
Lemma library_counts (dataframe : table_arg F) (iv dv : string) (ctv : pair_arg F)
    (r : Results F) :
  Library.welch_t_test dataframe iv dv ctv = Return r -> 2 <= n_control r /\ 2 <= n_test r.
Proof.
  intros Hr.
  apply welch_t_test_fields in Hr
    as (df & cv & tv & xs & ys & t & p & _ & _ & _ & _ & Lx & Ly & _ & ->).
  split; assumption.
Qed.
End Entry.

(** ** The claims that hold in any arithmetic *)

Section Claims.
Context {F : Type} {arith : Arith F} {runtime : Runtime F}.

(** The library's entry point does what C3 says.  When a group has exactly
    one observation left after the NaN-drop, it raises [InvalidDataError]
    and computes nothing.  When moreover the validation has passed and no
    group is empty, i.e. this is the first check to fail, the message is
    the one about the minimum sample size, naming the control group if it
    is the short one and the test group otherwise. *)
Lemma library_minimum_sample_size (df : DataFrame F) (iv dv : string) (cv tv : value F) :
  List.length (group df iv dv cv) = 1 \/ List.length (group df iv dv tv) = 1 ->
  exists message,
    Library.welch_t_test (Frame df) iv dv (SeqArg [cv; tv])
    = Raise (mk_exn InvalidDataError message) /\
    (Library.validate_inputs (Frame df) iv dv (SeqArg [cv; tv]) = Return tt ->
     group df iv dv cv <> [] -> group df iv dv tv <> [] ->
     message = if (List.length (group df iv dv cv) <? 2)%nat
               then "Control group must have at least 2 observations"
               else "Test group must have at least 2 observations").
Proof.
  intros Hone.
  assert (Hcols : exists indep dep, getitem df iv = Return indep /\ getitem df dv = Return dep).
  { destruct Hone as [Hone | Hone];
      [destruct (group_nonempty df iv dv cv) as (indep & dep & Hiv & Hdv & _)
      | destruct (group_nonempty df iv dv tv) as (indep & dep & Hiv & Hdv & _)];
      eauto; intros Hnil; rewrite Hnil in Hone; discriminate. }
  destruct Hcols as (indep & dep & Hiv & Hdv).
  unfold Library.welch_t_test, Library.welch_t_test_body.
  destruct (validate_inputs_pair df iv dv cv tv indep dep Hiv Hdv) as [Hval | [m Hval]];
    rewrite Hval; simpl bind.
  2: { exists m. split; [apply handle_invalid_data | discriminate]. }
  revert Hone. unfold Library.extract_groups, group. simpl unpack2. simpl subscript.
  rewrite Hiv, Hdv. simpl bind.
  set (C := select indep dep cv). set (T := select indep dep tv).
  intros Hone.
  destruct (List.length C =? 0)%nat eqn:HC0.
  { eexists. split; [apply handle_invalid_data |]. intros _ Hc _. exfalso. apply Hc.
    apply Nat.eqb_eq in HC0. destruct C; [reflexivity | discriminate]. }
  destruct (List.length T =? 0)%nat eqn:HT0.
  { eexists. split; [apply handle_invalid_data |]. intros _ _ Ht. exfalso. apply Ht.
    apply Nat.eqb_eq in HT0. destruct T; [reflexivity | discriminate]. }
  destruct (List.length (dropna C) =? 0)%nat eqn:Hc0.
  { eexists. split; [apply handle_invalid_data |]. intros _ Hc _. exfalso. apply Hc.
    apply Nat.eqb_eq in Hc0. destruct (dropna C); [reflexivity | discriminate]. }
  destruct (List.length (dropna T) =? 0)%nat eqn:Ht0.
  { eexists. split; [apply handle_invalid_data |]. intros _ _ Ht. exfalso. apply Ht.
    apply Nat.eqb_eq in Ht0. destruct (dropna T); [reflexivity | discriminate]. }
  destruct (List.length (dropna C) <? 2)%nat eqn:Hc2.
  { eexists. split; [apply handle_invalid_data | reflexivity]. }
  destruct (List.length (dropna T) <? 2)%nat eqn:Ht2.
  { eexists. split; [apply handle_invalid_data | reflexivity]. }
  apply Nat.ltb_ge in Hc2, Ht2. lia.
Qed.

(** C4.  On every successful call, of either variant, [degrees_of_freedom]
    is the Welch-Satterthwaite formula of the specification, evaluated at
    the sample (ddof=1) standard deviations and the counts of the control
    and test groups after the NaN-drop, which are the fields [std_control],
    [std_test], [n_control] and [n_test] of the result. *)
Theorem degrees_of_freedom_formula (dataframe : table_arg F) (iv dv : string) (ctv : pair_arg F)
    (r : Results F) :
  succeeds dataframe iv dv ctv r ->
  exists df cv tv xs ys,
    dataframe = Frame df /\ elements ctv = [cv; tv] /\
    as_numeric (group df iv dv cv) = Some xs /\ as_numeric (group df iv dv tv) = Some ys /\
    std_control r = std1 xs /\ std_test r = std1 ys /\
    n_control r = List.length xs /\ n_test r = List.length ys /\
    degrees_of_freedom r = welch_satterthwaite (std1 xs) (List.length xs) (std1 ys) (List.length ys).
Proof.
  intros Hr.
  apply succeeds_fields in Hr
    as (df & cv & tv & xs & ys & t & p & -> & Hctv & Hxs & Hys & _ & _ & _ & ->).
  exists df, cv, tv, xs, ys. repeat split; assumption.
Qed.

(** C6.  On a table whose grouping column has more than two distinct
    values, the entry point fails with the count in the message, whatever
    is passed for [control_test_values] (a pair, a sequence of another
    length, or no sequence at all): the library's entry point raises
    [InvalidDataError], the permissive variant returns the message in an
    error mapping. *)
Theorem distinct_count_before_pair_shape (df : DataFrame F) (iv dv : string) (ctv : pair_arg F)
    (col : Series F) :
  rectangular df = true ->
  getitem df iv = Return col ->
  has_column dv df = true ->
  2 < nunique col ->
  let message := ("Independent variable column has " ++ str_int (nunique col)
                  ++ " distinct values. Only 2 are allowed for t-test.")%string in
  Library.welch_t_test (Frame df) iv dv ctv = Raise (mk_exn InvalidDataError message) /\
  Script.welch_t_test (Frame df) iv dv ctv = Return (ErrorMapping message).
Proof.
  intros Hrect Hcol Hdv Hn message.
  assert (Hne : col <> []) by (intros ->; cbn in Hn; lia).
  pose proof (getitem_has_column df iv col Hcol) as Hiv.
  apply Nat.ltb_lt in Hn. split.
  - unfold Library.welch_t_test, Library.welch_t_test_body, Library.validate_inputs.
    rewrite (nonempty_column_frame df iv col Hrect Hcol Hne), Hiv, Hdv, Hcol. simpl.
    rewrite Hn. reflexivity.
  - unfold Script.welch_t_test, Script.welch_t_test_body. simpl attr_columns. simpl bind.
    change (existsb (String.eqb iv) (columns df)) with (has_column iv df).
    change (existsb (String.eqb dv) (columns df)) with (has_column dv df).
    rewrite Hiv, Hdv. simpl. rewrite Hcol. simpl. rewrite Hn. reflexivity.
Qed.

(** C7.  When the body of the library's entry point raises [e]: if [e] is
    an [InvalidColumnError] or an [InvalidDataError] the caller sees [e]
    itself; otherwise the caller sees a [WelchTTestError] whose message is
    "T-test calculation failed: " followed by the message of [e].  Either
    way, and for any exception the entry point lets out, the exception is
    of the library's taxonomy. *)
Theorem unexpected_exception_wrapped (dataframe : table_arg F) (iv dv : string) (ctv : pair_arg F)
    (e : exn) :
  Library.welch_t_test_body dataframe iv dv ctv = Raise e ->
  exists e',
    Library.welch_t_test dataframe iv dv ctv = Raise e' /\
    in_taxonomy e' = true /\
    (if isinstance e InvalidColumnError || isinstance e InvalidDataError
     then e' = e
     else e' = mk_exn WelchTTestError ("T-test calculation failed: " ++ exn_message e)) /\
    (forall e'', Library.welch_t_test dataframe iv dv ctv = Raise e'' -> in_taxonomy e'' = true).
Proof.
  intros Hbody. unfold Library.welch_t_test. rewrite Hbody. unfold Library.handle.
  destruct (isinstance e InvalidColumnError) eqn:Hcol; simpl.
  - apply invalid_column_in_taxonomy in Hcol.
    exists e. repeat split; trivial. now intros e'' [= <-].
  - destruct (isinstance e InvalidDataError) eqn:Hdata.
    + apply invalid_data_in_taxonomy in Hdata.
      exists e. repeat split; trivial. now intros e'' [= <-].
    + eexists. repeat split. now intros e'' [= <-].
Qed.

(** C8.  On every successful call, of either variant, [mean_difference] is
    the float64 subtraction [mean_test - mean_control] of the two returned
    means, which are the means of the test and control groups: the same
    operation on the same operands, hence the same bits. *)
Theorem mean_difference_exact (dataframe : table_arg F) (iv dv : string) (ctv : pair_arg F)
    (r : Results F) :
  succeeds dataframe iv dv ctv r ->
  mean_difference r = fsub (mean_test r) (mean_control r) /\
  exists df cv tv xs ys,
    dataframe = Frame df /\ elements ctv = [cv; tv] /\
    as_numeric (group df iv dv cv) = Some xs /\ as_numeric (group df iv dv tv) = Some ys /\
    mean_control r = mean xs /\ mean_test r = mean ys.
Proof.
  intros Hr.
  apply succeeds_fields in Hr
    as (df & cv & tv & xs & ys & t & p & -> & Hctv & Hxs & Hys & _ & _ & _ & ->).
  split; [reflexivity |]. exists df, cv, tv, xs, ys. repeat split; assumption.
Qed.

(** C10.  The permissive variant returns a dict on every input and never
    raises: the result mapping, or a one-key error mapping, the latter also
    when the body of its [try] statement raised. *)
Theorem permissive_never_raises (dataframe : table_arg F) (iv dv : string) (ctv : pair_arg F) :
  exists d,
    Script.welch_t_test dataframe iv dv ctv = Return d /\
    ((exists r, d = ResultMapping r) \/ (exists message, d = ErrorMapping message)).
Proof.
  unfold Script.welch_t_test.
  destruct (Script.welch_t_test_body dataframe iv dv ctv) as [[r | m] | e].
  - exists (ResultMapping r). eauto.
  - exists (ErrorMapping m). eauto.
  - eexists. eauto.
Qed.
End Claims.

(** ** The library on the store *)

Section StoreProperties.
Context {F : Type} {arith : Arith F} {runtime : Runtime F}.

Lemma extends_refl (w : store F) : extends w w.
Proof. exists [], [], []. now rewrite !app_nil_r. Qed.

Lemma extends_trans (w1 w2 w3 : store F) : extends w1 w2 -> extends w2 w3 -> extends w1 w3.
Proof.
  intros (t & s & m & Ht & Hs & Hm) (t' & s' & m' & Ht' & Hs' & Hm').
  exists (t ++ t'), (s ++ s'), (m ++ m').
  rewrite Ht', Hs', Hm', Ht, Hs, Hm, <- !app_assoc. auto.
Qed.

Lemma table_at_extends (w w' : store F) (a : nat) :
  extends w w' -> a < List.length (tables w) -> table_at w' a = table_at w a.
Proof. intros (t & _ & _ & Ht & _) Ha. unfold table_at. rewrite Ht. now apply app_nth1. Qed.

Lemma array_at_extends (w w' : store F) (s : nat) :
  extends w w' -> s < List.length (arrays w) -> array_at w' s = array_at w s.
Proof. intros (_ & t & _ & _ & Ht & _) Hs. unfold array_at. rewrite Ht. now apply app_nth1. Qed.

Lemma keep_select (indep dep : Series F) (v : value F) :
  keep (map (fun c => value_eqb c v) indep) dep = select indep dep v.
Proof.
  unfold keep, select. revert dep.
  induction indep as [| c indep IH]; intros [| d dep]; simpl; trivial.
  destruct (value_eqb c v); simpl; now rewrite IH.
Qed.

Lemma getitem_rows (mask : list bool) (df : DataFrame F) (name : string) :
  getitem (map (fun c => (fst c, keep mask (snd c))) df) name
  = (col <- getitem df name ;; Return (keep mask col))%py.
Proof.
  induction df as [| [c s] df IH]; simpl; [reflexivity |].
  destruct (String.eqb name c); [reflexivity | exact IH].
Qed.

Lemma extends_new_array (w : store F) (s : Series F) :
  extends w (mk_store (tables w) (arrays w ++ [s]) (masks w)).
Proof. exists [], [s], []. now rewrite !app_nil_r. Qed.

Lemma validate_inputs_on_store (w : store F) (a : nat) (iv dv : string) (ctv : pair_arg F) :
  exists w',
    OnStore.validate_inputs a iv dv ctv w
    = (Library.validate_inputs (table_at w a) iv dv ctv, w') /\
    extends w w'.
Proof.
  unfold OnStore.validate_inputs, Library.validate_inputs.
  cbv [OnStore.bind OnStore.is_DataFrame OnStore.attr_empty OnStore.in_columns
       OnStore.subscript_name OnStore.series_nunique OnStore.new_array OnStore.ret
       OnStore.throw].
  destruct (table_at w a) as [df | t] eqn:Ha; cbv beta iota; cbn [negb];
    [| eexists; split; [reflexivity | apply extends_refl]].
  rewrite Ha. cbv beta iota.
  destruct (empty df); [eexists; split; [reflexivity | apply extends_refl] |].
  rewrite Ha. cbn [attr_columns bind].
  change (existsb (String.eqb iv) (columns df)) with (has_column iv df).
  destruct (has_column iv df) eqn:Hiv; cbn [negb];
    [| eexists; split; [reflexivity | apply extends_refl]].
  rewrite Ha. cbn [attr_columns bind].
  change (existsb (String.eqb dv) (columns df)) with (has_column dv df).
  destruct (has_column dv df) eqn:Hdv; cbn [negb];
    [| eexists; split; [reflexivity | apply extends_refl]].
  rewrite Ha. cbn [subscript].
  destruct (getitem df iv) as [col | e]; cbn [bind];
    [| eexists; split; [reflexivity | apply extends_refl]].
  unfold array_at. cbn [arrays]. rewrite nth_middle.
  destruct (2 <? nunique col)%nat;
    [eexists; split; [reflexivity | apply extends_new_array] |].
  destruct ctv as [l | l | t |];
    try (eexists; split; [reflexivity | apply extends_new_array]).
  destruct (negb (List.length l =? 2)%nat);
    eexists; split; try reflexivity; apply extends_new_array.
Qed.
Ltac fetch :=
  repeat first [rewrite nth_middle
               | rewrite app_nth1 by (repeat rewrite length_app; simpl; lia)].

Ltac extended :=
  eexists _, _, _; cbn [tables arrays masks]; rewrite <- ?app_assoc;
  repeat split; try reflexivity; symmetry; apply app_nil_r.

Lemma extract_groups_on_store (w : store F) (a : nat) (iv dv : string) (ctv : pair_arg F) :
  a < List.length (tables w) ->
  exists w',
    extends w w' /\
    match Library.extract_groups (table_at w a) iv dv ctv with
    | Return (c, t, cv, tv) =>
        exists rc rt,
          OnStore.extract_groups a iv dv ctv w = (Return (rc, rt, cv, tv), w') /\
          array_at w' rc = c /\ array_at w' rt = t
    | Raise e => OnStore.extract_groups a iv dv ctv w = (Raise e, w')
    end.
Proof.
  destruct w as [T A K]. cbn [tables]. intros Hvalid.
  unfold OnStore.extract_groups, Library.extract_groups.
  cbv [OnStore.bind OnStore.lift OnStore.subscript_name OnStore.series_eq
       OnStore.subscript_mask OnStore.array_len OnStore.series_dropna OnStore.series_values
       OnStore.new_array OnStore.new_mask OnStore.new_table OnStore.ret OnStore.throw
       table_at array_at mask_at tables arrays masks].
  destruct (unpack2 ctv) as [[cv tv] | e]; cbn [bind];
    [| eexists; split; [apply extends_refl | reflexivity]].
  destruct (nth a T (NotFrame "NoneType")) as [df | t] eqn:Ha; cbn [subscript bind];
    [| eexists; split; [apply extends_refl | reflexivity]].
  destruct (getitem df iv) as [indep | e] eqn:Hiv; cbn [bind];
    [| eexists; split; [apply extends_refl | reflexivity]].
  fetch. rewrite Ha. fetch. cbn [subscript]. rewrite getitem_rows.
  destruct (getitem df dv) as [dep | e] eqn:Hdv; cbn [bind];
    [| eexists; split; [| reflexivity]; extended].
  rewrite keep_select. fetch. rewrite Ha. cbn [subscript]. rewrite Hiv. fetch. rewrite Ha. fetch.
  cbn [subscript]. rewrite getitem_rows, Hdv. cbn [bind]. rewrite keep_select. fetch.
  set (C := select indep dep cv). set (D := select indep dep tv).
  destruct (List.length C =? 0)%nat; [eexists; split; [| reflexivity]; extended |].
  cbv beta iota. fetch.
  destruct (List.length D =? 0)%nat; [eexists; split; [| reflexivity]; extended |].
  cbv beta iota. fetch.
  destruct (List.length (dropna C) =? 0)%nat; [eexists; split; [| reflexivity]; extended |].
  cbv beta iota. fetch.
  destruct (List.length (dropna D) =? 0)%nat; [eexists; split; [| reflexivity]; extended |].
  cbv beta iota. fetch.
  destruct (List.length (dropna C) <? 2)%nat; [eexists; split; [| reflexivity]; extended |].
  cbv beta iota. fetch.
  destruct (List.length (dropna D) <? 2)%nat; [eexists; split; [| reflexivity]; extended |].
  cbv beta iota.
  eexists; split; [| eexists _, _; split; [reflexivity |]]; [extended |].
  split; fetch; reflexivity.
Qed.
Lemma store_bind_Return {A B} (m : stateful F A) (k : A -> stateful F B) (w w1 : store F)
    (a : A) :
  m w = (Return a, w1) -> OnStore.bind m k w = k a w1.
Proof. unfold OnStore.bind. now intros ->. Qed.

Lemma store_bind_Raise {A B} (m : stateful F A) (k : A -> stateful F B) (w w1 : store F)
    (e : exn) :
  m w = (Raise e, w1) -> OnStore.bind m k w = (Raise e, w1).
Proof. unfold OnStore.bind. now intros ->. Qed.

(** The outcome of the body on a store is the outcome of the body on the
    table the reference holds, and the store is only extended. *)
Lemma welch_t_test_body_on_store (w : store F) (a : nat) (iv dv : string) (ctv : pair_arg F) :
  a < List.length (tables w) ->
  exists w',
    OnStore.welch_t_test_body a iv dv ctv w
    = (Library.welch_t_test_body (table_at w a) iv dv ctv, w') /\
    extends w w'.
Proof.
  intros Hvalid. unfold OnStore.welch_t_test_body, Library.welch_t_test_body.
  destruct (validate_inputs_on_store w a iv dv ctv) as (w1 & Hval & Hext1).
  destruct (Library.validate_inputs (table_at w a) iv dv ctv) as [[] | e];
    [rewrite (store_bind_Return _ _ _ _ _ Hval) | rewrite (store_bind_Raise _ _ _ _ _ Hval); eauto].
  cbn [bind].
  assert (Hvalid1 : a < List.length (tables w1)).
  { destruct Hext1 as (t & _ & _ & -> & _). rewrite length_app. lia. }
  destruct (extract_groups_on_store w1 a iv dv ctv Hvalid1) as (w2 & Hext2 & Hgroups).
  rewrite (table_at_extends w w1 a Hext1 Hvalid) in Hgroups.
  pose proof (extends_trans _ _ _ Hext1 Hext2) as Hext.
  destruct (Library.extract_groups (table_at w a) iv dv ctv) as [[[[c t] cv] tv] | e];
    [| rewrite (store_bind_Raise _ _ _ _ _ Hgroups); eauto].
  destruct Hgroups as (rc & rt & Hrun & Hc & Ht).
  rewrite (store_bind_Return _ _ _ _ _ Hrun). cbn [bind].
  exists w2. split; [| exact Hext].
  unfold calculate.
  cbv [OnStore.bind OnStore.on_arrays OnStore.on_array OnStore.array_len OnStore.ret].
  rewrite Hc, Ht.
  destruct (ttest_ind c t) as [[ts p] | e]; cbn [bind]; [| reflexivity].
  rewrite ?Hc, ?Ht.
  destruct (np_mean c); cbn [bind]; [| reflexivity]. rewrite ?Hc, ?Ht.
  destruct (np_mean t); cbn [bind]; [| reflexivity]. rewrite ?Hc, ?Ht.
  destruct (np_std c); cbn [bind]; [| reflexivity]. rewrite ?Hc, ?Ht.
  destruct (np_std t); cbn [bind]; [| reflexivity]. rewrite ?Hc, ?Ht.
  reflexivity.
Qed.

Lemma welch_t_test_on_store (w : store F) (a : nat) (iv dv : string) (ctv : pair_arg F) :
  a < List.length (tables w) ->
  exists w',
    OnStore.welch_t_test a iv dv ctv w = (Library.welch_t_test (table_at w a) iv dv ctv, w') /\
    extends w w'.
Proof.
  intros Hvalid. unfold OnStore.welch_t_test, Library.welch_t_test.
  destruct (welch_t_test_body_on_store w a iv dv ctv Hvalid) as (w' & -> & Hext). eauto.
Qed.

(** C9.  The library's entry point keeps no state between calls.  A call
    on a reference to a table in the interpreter's store returns what the
    contents of the table, the two column names and the pair determine,
    whatever else the store holds; it changes no object that existed
    before it, the table included, and only leaves new objects behind.  So
    a second call with the same arguments, made in the store the first one
    left, and a call in any other store on a table with the same contents,
    give the same outcome: the same result mapping, or the same exception
    with the same message. *)
Theorem welch_t_test_keeps_no_state (w : store F) (dataframe : nat) (iv dv : string)
    (ctv : pair_arg F) :
  dataframe < List.length (tables w) ->
  let outcome1 := fst (OnStore.welch_t_test dataframe iv dv ctv w) in
  let w' := snd (OnStore.welch_t_test dataframe iv dv ctv w) in
  extends w w' /\
  table_at w' dataframe = table_at w dataframe /\
  fst (OnStore.welch_t_test dataframe iv dv ctv w') = outcome1 /\
  forall (w2 : store F) (dataframe2 : nat),
    dataframe2 < List.length (tables w2) ->
    table_at w2 dataframe2 = table_at w dataframe ->
    fst (OnStore.welch_t_test dataframe2 iv dv ctv w2) = outcome1.
Proof.
  intros Hvalid outcome1 w'. subst outcome1 w'.
  destruct (welch_t_test_on_store w dataframe iv dv ctv Hvalid) as (w' & Hrun & Hext).
  rewrite Hrun. cbn [fst snd].
  assert (Hvalid' : dataframe < List.length (tables w')).
  { destruct Hext as (t & _ & _ & -> & _). rewrite length_app. lia. }
  pose proof (table_at_extends w w' dataframe Hext Hvalid) as Hsame.
  repeat split; trivial.
  - destruct (welch_t_test_on_store w' dataframe iv dv ctv Hvalid') as (w'' & -> & _).
    cbn [fst]. now rewrite Hsame.
  - intros w2 dataframe2 Hvalid2 Hcontents.
    destruct (welch_t_test_on_store w2 dataframe2 iv dv ctv Hvalid2) as (w2' & -> & _).
    cbn [fst]. now rewrite Hcontents.
Qed.
End StoreProperties.

(** ** The statistic of the primitive *)

Section Statistic.
Context {F : Type} {arith : Arith F}.
Variable str_of_num : F -> string.
Variable error_text : Series F -> string.

(** With scipy's primitive, the statistic of a successful call is the
    difference of the means, control minus test, over the Welch
    denominator of the two groups. *)
Lemma t_statistic_formula (dataframe : table_arg F) (iv dv : string) (ctv : pair_arg F)
    (r : Results F) :
  @succeeds F _ (scipy_runtime str_of_num error_text) dataframe iv dv ctv r ->
  exists xs ys,
    mean_control r = mean xs /\ mean_test r = mean ys /\
    std_control r = std1 xs /\ std_test r = std1 ys /\
    n_control r = List.length xs /\ n_test r = List.length ys /\
    mean_difference r = fsub (mean_test r) (mean_control r) /\
    t_statistic r
    = fdiv (fsub (mean_control r) (mean_test r))
           (fsqrt (fadd (fdiv (var1 xs) (of_int (n_control r)))
                        (fdiv (var1 ys) (of_int (n_test r))))).
Proof.
  intros Hr.
  apply succeeds_fields in Hr
    as (df & cv & tv & xs & ys & t & p & -> & Hctv & Hxs & Hys & Lx & Ly & Htt & ->).
  cbn [ttest_ind scipy_runtime] in Htt. unfold scipy_ttest_ind in Htt.
  rewrite Hxs, Hys in Htt. injection Htt as <- _.
  exists xs, ys. repeat split.
Qed.
End Statistic.

(** ** Exact arithmetic *)

Section Exact.
Local Open Scope R_scope.

Lemma fold_left_Rplus_nonneg (l : list R) (acc : R) :
  Forall (fun x => 0 <= x) l -> 0 <= acc -> 0 <= fold_left Rplus l acc.
Proof.
  revert acc. induction l as [| x l IH]; simpl; intros acc Hl Hacc; [exact Hacc |].
  inversion Hl; subst. apply IH; [assumption | lra].
Qed.

Lemma Rinv_nonneg (d : R) : 0 <= d -> 0 <= / d.
Proof.
  intros [Hpos | <-]; [left; now apply Rinv_0_lt_compat | rewrite Rinv_0; lra].
Qed.

(** A sample variance is not negative. *)
Lemma var1_nonneg (xs : list R) : 0 <= var1 xs.
Proof.
  unfold var1. cbn [fdiv exact of_int].
  apply Rmult_le_pos.
  - apply fold_left_Rplus_nonneg; [| cbn; lra].
    apply Forall_forall. intros y Hy. apply in_map_iff in Hy as (x & <- & _).
    unfold fsq. cbn [fmul exact]. apply Rle_0_sqr.
  - apply Rinv_nonneg, pos_INR.
Qed.

(** In exact arithmetic the square of the sample standard deviation is the
    sample variance. *)
Lemma std1_squared (xs : list R) : fsq (std1 xs) = var1 xs.
Proof. unfold fsq, std1. cbn [fmul fsqrt exact]. apply sqrt_sqrt, var1_nonneg. Qed.

(** So the degrees of freedom of a successful call are the formula at the
    sample variances themselves. *)
Lemma degrees_of_freedom_from_variances {runtime : Runtime R} (dataframe : table_arg R) (iv dv : string)
    (ctv : pair_arg R) (r : Results R) :
  succeeds dataframe iv dv ctv r ->
  exists df cv tv xs ys,
    dataframe = Frame df /\ elements ctv = [cv; tv] /\
    as_numeric (group df iv dv cv) = Some xs /\ as_numeric (group df iv dv tv) = Some ys /\
    degrees_of_freedom r = welch_df (var1 xs) (List.length xs) (var1 ys) (List.length ys).
Proof.
  intros Hr.
  apply succeeds_fields in Hr
    as (df & cv & tv & xs & ys & t & p & -> & Hctv & Hxs & Hys & _ & _ & _ & ->).
  exists df, cv, tv, xs, ys. cbn [degrees_of_freedom]. rewrite !std1_squared.
  repeat split; assumption.
Qed.

(** The algebra behind the bounds on the degrees of freedom. *)
Lemma welch_ratio_bounds (a b m1 m2 : R) :
  0 <= a -> 0 <= b -> 0 < a + b -> 1 <= m1 -> 1 <= m2 ->
  Rmin m1 m2 <= (a + b) * (a + b) / (a * a / m1 + b * b / m2) <= m1 + m2.
Proof.
  intros Ha Hb Hab Hm1 Hm2.
  assert (Hm1' : 0 < m1) by lra. assert (Hm2' : 0 < m2) by lra.
  assert (HD : 0 < a * a / m1 + b * b / m2).
  { assert (0 <= a * a / m1) by (apply Rmult_le_pos; [nra | left; now apply Rinv_0_lt_compat]).
    assert (0 <= b * b / m2) by (apply Rmult_le_pos; [nra | left; now apply Rinv_0_lt_compat]).
    destruct (Rle_lt_or_eq_dec 0 a Ha) as [Hpos | <-].
    - assert (0 < a * a / m1) by (apply Rmult_lt_0_compat; [nra | now apply Rinv_0_lt_compat]). lra.
    - assert (0 < b * b / m2) by (apply Rmult_lt_0_compat; [nra | now apply Rinv_0_lt_compat]). lra. }
  set (D := a * a / m1 + b * b / m2) in *.
  assert (Hm : m1 * m2 * D = m2 * (a * a) + m1 * (b * b)) by (unfold D; field; lra).
  assert (Hq : (a + b) * (a + b) / D * D = (a + b) * (a + b)) by (field; lra).
  split; apply Rmult_le_reg_r with D; try exact HD; rewrite Hq.
  - unfold Rmin. destruct (Rle_dec m1 m2) as [Hle | Hgt].
    + assert (m1 * D <= a * a + b * b).
      { apply Rmult_le_reg_l with m2; [exact Hm2' |].
        replace (m2 * (m1 * D)) with (m1 * m2 * D) by ring. rewrite Hm. nra. }
      nra.
    + assert (m2 * D <= a * a + b * b).
      { apply Rmult_le_reg_l with m1; [exact Hm1' |].
        replace (m1 * (m2 * D)) with (m1 * m2 * D) by ring. rewrite Hm. nra. }
      nra.
  - apply Rmult_le_reg_l with (m1 * m2); [apply Rmult_lt_0_compat; lra |].
    replace (m1 * m2 * ((m1 + m2) * D)) with ((m1 + m2) * (m1 * m2 * D)) by ring.
    rewrite Hm.
    pose proof (Rle_0_sqr (m2 * a - m1 * b)) as Hsq. unfold Rsqr in Hsq.
    replace ((m1 + m2) * (m2 * (a * a) + m1 * (b * b)))
      with (m1 * m2 * ((a + b) * (a + b)) + (m2 * a - m1 * b) * (m2 * a - m1 * b)) by ring.
    lra.
Qed.

(** In exact arithmetic, on every successful call, of either variant, in
    which both groups have two observations or more and the two sample
    standard deviations are not both zero, the degrees of freedom lie
    between [min(n_control, n_test) - 1] and [n_control + n_test - 2]. *)
Lemma succeeds_degrees_of_freedom_bounds {runtime : Runtime R} (dataframe : table_arg R)
    (iv dv : string) (ctv : pair_arg R) (r : Results R) :
  succeeds dataframe iv dv ctv r ->
  (2 <= n_control r)%nat -> (2 <= n_test r)%nat ->
  std_control r <> 0 \/ std_test r <> 0 ->
  INR (Nat.min (n_control r) (n_test r) - 1) <= degrees_of_freedom r
  <= INR (n_control r + n_test r - 2).
Proof.
  intros Hr Lx Ly Hstd.
  apply succeeds_fields in Hr
    as (df & cv & tv & xs & ys & t & p & _ & _ & _ & _ & _ & _ & _ & ->).
  cbn [std_control std_test n_control n_test degrees_of_freedom] in *.
  set (n1 := List.length xs) in *. set (n2 := List.length ys) in *.
  set (s1 := std1 xs) in *. set (s2 := std1 ys) in *.
  unfold welch_df, fsq. cbn [fadd fmul fdiv of_int exact].
  assert (H1 : 0 < INR n1) by (apply lt_0_INR; lia).
  assert (H2 : 0 < INR n2) by (apply lt_0_INR; lia).
  assert (Hm1 : 1 <= INR (n1 - 1)) by (change 1 with (INR 1); apply le_INR; lia).
  assert (Hm2 : 1 <= INR (n2 - 1)) by (change 1 with (INR 1); apply le_INR; lia).
  assert (Ha : 0 <= s1 * s1 / INR n1)
    by (apply Rmult_le_pos; [apply Rle_0_sqr | left; now apply Rinv_0_lt_compat]).
  assert (Hb : 0 <= s2 * s2 / INR n2)
    by (apply Rmult_le_pos; [apply Rle_0_sqr | left; now apply Rinv_0_lt_compat]).
  assert (Hab : 0 < s1 * s1 / INR n1 + s2 * s2 / INR n2).
  { destruct Hstd as [Hs | Hs].
    - assert (0 < s1 * s1 / INR n1)
        by (apply Rmult_lt_0_compat; [now apply Rsqr_pos_lt | now apply Rinv_0_lt_compat]). lra.
    - assert (0 < s2 * s2 / INR n2)
        by (apply Rmult_lt_0_compat; [now apply Rsqr_pos_lt | now apply Rinv_0_lt_compat]). lra. }
  pose proof (welch_ratio_bounds _ _ _ _ Ha Hb Hab Hm1 Hm2) as [Hlow Hup].
  split.
  - replace (INR (Nat.min n1 n2 - 1)) with (Rmin (INR (n1 - 1)) (INR (n2 - 1))); [exact Hlow |].
    rewrite <- Nat.sub_min_distr_r. unfold Rmin.
    destruct (Rle_dec (INR (n1 - 1)) (INR (n2 - 1))) as [Hle | Hgt].
    + apply INR_le in Hle. now rewrite Nat.min_l.
    + rewrite Nat.min_r; [reflexivity |]. apply Rnot_le_lt, INR_lt in Hgt. lia.
  - replace (n1 + n2 - 2)%nat with ((n1 - 1) + (n2 - 1))%nat by lia. rewrite plus_INR. exact Hup.
Qed.

(** C5, as amended.  In exact arithmetic, on every successful call of the
    library's entry point (both groups then have two observations or more)
    in which the two sample standard deviations are not both zero, the
    degrees of freedom lie between [min(n_control, n_test) - 1] and
    [n_control + n_test - 2]. *)
Theorem degrees_of_freedom_bounds {runtime : Runtime R} (dataframe : table_arg R) (iv dv : string)
    (ctv : pair_arg R) (r : Results R) :
  Library.welch_t_test dataframe iv dv ctv = Return r ->
  std_control r <> 0 \/ std_test r <> 0 ->
  INR (Nat.min (n_control r) (n_test r) - 1) <= degrees_of_freedom r
  <= INR (n_control r + n_test r - 2).
Proof.
  intros Hr Hstd. destruct (library_counts _ _ _ _ _ Hr) as [Lx Ly].
  now apply (succeeds_degrees_of_freedom_bounds dataframe iv dv ctv r (or_introl Hr)).
Qed.

(** C1, as amended.  In exact arithmetic and with scipy's primitive, the
    statistic of a successful call, of either variant, is control minus
    test: [t = (mean_control - mean_test) / sqrt(s1²/n1 + s2²/n2)] with
    group 1 the control group and group 2 the test group, whereas
    [mean_difference] is test minus control.  So the two never have the
    same sign: their product is at most zero, and negative when the means
    differ and the denominator is not zero. *)
Theorem t_statistic_control_minus_test (str_of_num : R -> string)
    (error_text : Series R -> string) (dataframe : table_arg R) (iv dv : string)
    (ctv : pair_arg R) (r : Results R) :
  @succeeds R exact (scipy_runtime str_of_num error_text) dataframe iv dv ctv r ->
  let denom := sqrt (std_control r * std_control r / INR (n_control r)
                     + std_test r * std_test r / INR (n_test r)) in
  t_statistic r = (mean_control r - mean_test r) / denom /\
  mean_difference r = mean_test r - mean_control r /\
  t_statistic r * mean_difference r <= 0 /\
  (mean_difference r <> 0 -> denom <> 0 -> t_statistic r * mean_difference r < 0).
Proof.
  intros Hr denom.
  apply t_statistic_formula in Hr as (xs & ys & _ & _ & Hs1 & Hs2 & _ & _ & Hmd & Ht).
  cbn [fadd fsub fdiv fsqrt of_int exact] in Hmd, Ht.
  rewrite <- (std1_squared xs), <- (std1_squared ys), <- Hs1, <- Hs2 in Ht.
  unfold fsq in Ht. cbn [fmul exact] in Ht. fold denom in Ht.
  assert (Hd : 0 <= denom) by apply sqrt_pos.
  set (q := mean_test r - mean_control r) in *.
  assert (Hprod : t_statistic r * mean_difference r = - (q * q) * / denom).
  { rewrite Ht, Hmd. unfold q, Rdiv. ring. }
  pose proof (Rle_0_sqr q) as Hq. unfold Rsqr in Hq.
  repeat split; trivial.
  - rewrite Hprod. pose proof (Rinv_nonneg denom Hd). nra.
  - intros Hne Hdn. rewrite Hprod.
    assert (0 < / denom) by (apply Rinv_0_lt_compat; lra).
    assert (0 < q * q) by (apply Rsqr_pos_lt; now rewrite <- Hmd).
    nra.
Qed.
End Exact.

(** ** The claims on worked tables *)

(** C1, the claim as stated fails.  On two groups with means 0 (control)
    and 10 (test) the statistic is -5 and the mean difference is +10: the
    statistic is control minus test.  The formula of the claim, test minus
    control over the same denominator, is positive. *)
Lemma t_statistic_sign_counterexample :
  exists r,
    run_float spread_control spread_test = Return r /\
    mean_control r = 0%float /\ mean_test r = 10%float /\
    t_statistic r = (-5)%float /\
    mean_difference r = 10%float /\
    PrimFloat.ltb 0 (fdiv (fsub (mean_test r) (mean_control r))
                          (fsqrt (fadd (fdiv (fsq (std_control r)) (of_int (n_control r)))
                                       (fdiv (fsq (std_test r)) (of_int (n_test r))))))
    = true.
Proof. eexists. split; [vm_compute; reflexivity |]. vm_compute. repeat split. Qed.

(** On Scenario 3 of the specification too, the statistic is negative and
    the mean difference positive. *)
Lemma scenario3_signs :
  exists r,
    run_float scenario3_control scenario3_test = Return r /\
    PrimFloat.ltb (t_statistic r) 0 = true /\ PrimFloat.ltb 0 (mean_difference r) = true /\
    n_control r = 4 /\ n_test r = 4.
Proof. eexists. split; [vm_compute; reflexivity |]. vm_compute. repeat split. Qed.

(** The amended C1 on the same two groups, in exact arithmetic. *)
Lemma t_statistic_control_minus_test_witness :
  exists r,
    run_exact spread_control spread_test = Return r /\
    (t_statistic r * mean_difference r <= 0)%R.
Proof.
  eexists. split; [cbn; reflexivity |].
  apply (t_statistic_control_minus_test (fun _ => "nan") example_error_text
           (Frame (two_groups spread_control spread_test)) "group" "value" control_test).
  left. cbn. reflexivity.
Defined.

(** C2, the code at the input of Scenario 6.  With control = [5, 5, 5] and
    test = [5, 5, 5] the library's entry point raises nothing, and so no
    [StatisticalError]: it returns a result whose statistic (and degrees
    of freedom) are NaN. *)
Lemma zero_variance_equal_means_returns_nan :
  exists r,
    run_float (constant 3 5) (constant 3 5) = Return r /\
    fisnan (t_statistic r) = true /\
    fisnan (degrees_of_freedom r) = true /\
    mean_control r = 5%float /\ mean_test r = 5%float /\
    std_control r = 0%float /\ std_test r = 0%float.
Proof. eexists. split; [vm_compute; reflexivity |]. vm_compute. repeat split. Qed.

(** The permissive variant does the same on that input. *)
Lemma script_zero_variance_equal_means_returns_nan :
  exists r,
    script_float (constant 3 5) (constant 3 5) = Return (ResultMapping r) /\
    fisnan (t_statistic r) = true.
Proof. eexists. split; [vm_compute; reflexivity |]. reflexivity. Qed.

(** C3, the code at a control group with one observation and one NaN.  The
    permissive variant has no check of the sample size: it returns a
    result mapping, computed from one control observation, whose
    [std_control], statistic and degrees of freedom are NaN. *)
Lemma script_has_no_minimum_sample_size :
  exists r,
    script_float short_control (constant 2 2) = Return (ResultMapping r) /\
    n_control r = 1 /\
    fisnan (std_control r) = true /\
    fisnan (t_statistic r) = true /\
    fisnan (degrees_of_freedom r) = true.
Proof. eexists. split; [vm_compute; reflexivity |]. vm_compute. repeat split. Qed.

(** The library's entry point on the same table raises, as C3 says. *)
Lemma library_minimum_sample_size_example :
  exists message,
    run_float short_control (constant 2 2) = Raise (mk_exn InvalidDataError message) /\
    message = "Control group must have at least 2 observations".
Proof.
  destruct (library_minimum_sample_size (runtime := float_runtime)
              (two_groups short_control (constant 2 2))
              "group" "value" (VStr "control") (VStr "test")) as (message & Hraise & Hmsg).
  - left. reflexivity.
  - exists message. split; [exact Hraise |].
    apply Hmsg; [reflexivity | discriminate | discriminate].
Qed.

(** C4 on Scenario 3 of the specification. *)
Lemma degrees_of_freedom_formula_witness :
  exists r,
    run_float scenario3_control scenario3_test = Return r /\
    degrees_of_freedom r
    = welch_satterthwaite (std_control r) (n_control r) (std_test r) (n_test r).
Proof.
  destruct (run_float scenario3_control scenario3_test) as [r | e] eqn:Hrun;
    [| vm_compute in Hrun; discriminate].
  exists r. split; [reflexivity |].
  destruct (degrees_of_freedom_formula (runtime := float_runtime) _ _ _ _ r (or_introl Hrun))
    as (df & cv & tv & xs & ys & _ & _ & _ & _ & -> & -> & -> & -> & ->).
  reflexivity.
Defined.

(** C5, the claim as stated fails.  With control = [1, 1] and test = [2, 2]
    the call succeeds (the statistic is minus infinity) and the degrees of
    freedom are NaN, which is not at least [min(2, 2) - 1 = 1]. *)
Lemma degrees_of_freedom_bounds_counterexample :
  exists r,
    run_float (constant 2 1) (constant 2 2) = Return r /\
    n_control r = 2 /\ n_test r = 2 /\
    t_statistic r = neg_infinity /\
    fisnan (degrees_of_freedom r) = true /\
    PrimFloat.leb (of_int (Nat.min (n_control r) (n_test r) - 1)) (degrees_of_freedom r) = false.
Proof. eexists. split; [vm_compute; reflexivity |]. vm_compute. repeat split. Qed.

(** In binary64 the upper bound also fails by rounding, with variances that
    are not zero: control = [5.0, 5.4] and test = [10.3, 10.7] give
    degrees of freedom just above [2 + 2 - 2]. *)
Lemma degrees_of_freedom_rounding :
  exists r,
    run_float rounding_control rounding_test = Return r /\
    PrimFloat.ltb 0 (std_control r) = true /\ PrimFloat.ltb 0 (std_test r) = true /\
    PrimFloat.ltb (of_int (n_control r + n_test r - 2)) (degrees_of_freedom r) = true.
Proof. eexists. split; [vm_compute; reflexivity |]. vm_compute. repeat split. Qed.

(** The amended C5 on two groups of four with variances 4 and 12. *)
Lemma degrees_of_freedom_bounds_witness :
  exists r,
    run_exact spread_control spread_test = Return r /\
    (INR (Nat.min (n_control r) (n_test r) - 1) <= degrees_of_freedom r
     <= INR (n_control r + n_test r - 2))%R.
Proof.
  eexists. split; [cbn; reflexivity |].
  apply (degrees_of_freedom_bounds (runtime := exact_runtime)
           (Frame (two_groups spread_control spread_test)) "group" "value" control_test).
  - cbn. reflexivity.
  - left. cbn. apply Rgt_not_eq, sqrt_lt_R0. lra.
Defined.

(** C6 on a table with three labels, called with an integer in place of
    the pair of group values. *)
Lemma distinct_count_before_pair_shape_witness :
  @Library.welch_t_test float binary64 float_runtime
    (Frame three_labels) "group" "value" (UnsizedArg "int")
  = Raise (mk_exn InvalidDataError
             "Independent variable column has 3 distinct values. Only 2 are allowed for t-test.") /\
  @Script.welch_t_test float binary64 float_runtime
    (Frame three_labels) "group" "value" (UnsizedArg "int")
  = Return (ErrorMapping
              "Independent variable column has 3 distinct values. Only 2 are allowed for t-test.").
Proof.
  apply (distinct_count_before_pair_shape (runtime := float_runtime) three_labels "group" "value"
           (UnsizedArg "int") [VStr "a"; VStr "a"; VStr "b"; VStr "b"; VStr "c"; VStr "c"]).
  - reflexivity.
  - reflexivity.
  - reflexivity.
  - vm_compute. lia.
Defined.

(** C7 on a control group holding a string: the TypeError of the primitive
    reaches the caller as a [WelchTTestError]. *)
Lemma unexpected_exception_wrapped_witness :
  run_float mixed_control (constant 2 2)
  = Raise (mk_exn WelchTTestError
             "T-test calculation failed: unsupported operand type(s) for +: 'float' and 'str'").
Proof.
  destruct (unexpected_exception_wrapped (runtime := float_runtime)
              (Frame (two_groups mixed_control (constant 2 2))) "group" "value" control_test
              (mk_exn TypeError "unsupported operand type(s) for +: 'float' and 'str'"))
    as (e' & Hraise & _ & Hwrapped & _).
  - vm_compute. reflexivity.
  - cbn in Hwrapped. rewrite <- Hwrapped. exact Hraise.
Defined.

(** C8 on Scenario 3 of the specification. *)
Lemma mean_difference_exact_witness :
  exists r,
    run_float scenario3_control scenario3_test = Return r /\
    mean_difference r = PrimFloat.sub (mean_test r) (mean_control r).
Proof.
  destruct (run_float scenario3_control scenario3_test) as [r | e] eqn:Hrun;
    [| vm_compute in Hrun; discriminate].
  exists r. split; [reflexivity |].
  exact (proj1 (mean_difference_exact (runtime := float_runtime) _ _ _ _ r (or_introl Hrun))).
Defined.

(** C9 on Scenario 3 of the specification: the first call leaves seven
    Series behind, and the second call, made in that store, returns the
    result of the first. *)
Lemma welch_t_test_keeps_no_state_witness :
  exists r w',
    @OnStore.welch_t_test float binary64 float_runtime 0 "group" "value" control_test
      scenario3_store = (Return r, w') /\
    List.length (arrays w') = 7 /\
    table_at w' 0 = table_at scenario3_store 0 /\
    fst (@OnStore.welch_t_test float binary64 float_runtime 0 "group" "value" control_test w')
    = Return r.
Proof.
  assert (Hvalid : 0 < List.length (tables scenario3_store)) by (simpl; lia).
  pose proof (welch_t_test_keeps_no_state (runtime := float_runtime) scenario3_store 0
                "group" "value" control_test Hvalid) as Hcall.
  cbv zeta in Hcall.
  destruct (@OnStore.welch_t_test float binary64 float_runtime 0 "group" "value" control_test
              scenario3_store) as [[r | e] w'] eqn:Hrun;
    [| vm_compute in Hrun; discriminate].
  cbn [fst snd] in Hcall. destruct Hcall as (_ & Hsame & Hagain & _).
  exists r, w'. repeat split; trivial.
  vm_compute in Hrun. injection Hrun as _ <-. reflexivity.
Defined.

(** * Further properties of the code *)

(** ** Validation and extraction, in both directions *)

Section Steps.
Context {F : Type} {arith : Arith F} {runtime : Runtime F}.

Lemma validate_inputs_intro (df : DataFrame F) (iv dv : string) (cv tv : value F)
    (col : Series F) :
  empty df = false -> getitem df iv = Return col -> has_column dv df = true ->
  nunique col <= 2 ->
  Library.validate_inputs (Frame df) iv dv (SeqArg [cv; tv]) = Return tt.
Proof.
  intros Hempty Hcol Hdv Hn. unfold Library.validate_inputs.
  rewrite Hempty, (getitem_has_column df iv col Hcol), Hdv, Hcol. simpl.
  apply Nat.ltb_ge in Hn. rewrite Hn. reflexivity.
Qed.

(** [validate_inputs] raises the two kinds it names, and the TypeError of
    [len] on a zero-dimensional array; the column lookup comes after the
    membership test. *)
Lemma validate_inputs_Raise (dataframe : table_arg F) (iv dv : string) (ctv : pair_arg F)
    (e : exn) :
  Library.validate_inputs dataframe iv dv ctv = Raise e ->
  exn_cls e = InvalidDataError \/ exn_cls e = InvalidColumnError \/
  (ctv = ScalarArrayArg /\ e = mk_exn TypeError "len() of unsized object").
Proof.
  unfold Library.validate_inputs.
  destruct dataframe as [df | t]; [| intros [= <-]; now left].
  destruct (empty df); [intros [= <-]; now left |].
  destruct (has_column iv df) eqn:Hiv; simpl; [| intros [= <-]; right; now left].
  destruct (has_column dv df) eqn:Hdv; simpl; [| intros [= <-]; right; now left].
  destruct (has_column_getitem df iv Hiv) as [col Hcol]. rewrite Hcol. simpl.
  destruct (2 <? nunique col)%nat; [intros [= <-]; now left |].
  destruct ctv as [l | l | t |]; try (intros [= <-]; now left).
  - destruct (negb (List.length l =? 2)%nat); [intros [= <-]; now left | discriminate].
  - intros [= <-]. right. right. split; reflexivity.
Qed.

(** After a passed validation, [extract_groups] returns the two groups or
    raises [InvalidDataError]. *)
Lemma extract_groups_cases (df : DataFrame F) (iv dv : string) (cv tv : value F) :
  Library.validate_inputs (Frame df) iv dv (SeqArg [cv; tv]) = Return tt ->
  (2 <= List.length (group df iv dv cv) /\ 2 <= List.length (group df iv dv tv) /\
   Library.extract_groups (Frame df) iv dv (SeqArg [cv; tv])
   = Return (group df iv dv cv, group df iv dv tv, cv, tv)) \/
  ((List.length (group df iv dv cv) < 2 \/ List.length (group df iv dv tv) < 2) /\
   exists message,
     Library.extract_groups (Frame df) iv dv (SeqArg [cv; tv])
     = Raise (Library.invalid_data message)).
Proof.
  intros Hval.
  apply validate_inputs_Return in Hval
    as (df' & col & cv' & tv' & [= <-] & _ & _ & Hcol & Hdv & _).
  destruct (has_column_getitem df dv Hdv) as [dep Hdep].
  unfold Library.extract_groups, group. simpl unpack2. simpl subscript.
  rewrite Hcol, Hdep. simpl bind.
  set (C := select col dep cv). set (T := select col dep tv).
  pose proof (dropna_length C) as LC. pose proof (dropna_length T) as LT.
  destruct (List.length C =? 0)%nat eqn:HC0.
  { right. apply Nat.eqb_eq in HC0. split; [lia | eauto]. }
  destruct (List.length T =? 0)%nat eqn:HT0.
  { right. apply Nat.eqb_eq in HT0. split; [lia | eauto]. }
  destruct (List.length (dropna C) =? 0)%nat eqn:Hc0.
  { right. apply Nat.eqb_eq in Hc0. split; [lia | eauto]. }
  destruct (List.length (dropna T) =? 0)%nat eqn:Ht0.
  { right. apply Nat.eqb_eq in Ht0. split; [lia | eauto]. }
  destruct (List.length (dropna C) <? 2)%nat eqn:Hc2.
  { right. apply Nat.ltb_lt in Hc2. split; [lia | eauto]. }
  destruct (List.length (dropna T) <? 2)%nat eqn:Ht2.
  { right. apply Nat.ltb_lt in Ht2. split; [lia | eauto]. }
  left. apply Nat.ltb_ge in Hc2, Ht2. repeat split; assumption.
Qed.

(** On a validated table with two groups of two observations or more, the
    body of the library's entry point is the calculation on the groups. *)
Lemma welch_t_test_body_calculate (df : DataFrame F) (iv dv : string) (cv tv : value F) :
  Library.validate_inputs (Frame df) iv dv (SeqArg [cv; tv]) = Return tt ->
  2 <= List.length (group df iv dv cv) -> 2 <= List.length (group df iv dv tv) ->
  Library.welch_t_test_body (Frame df) iv dv (SeqArg [cv; tv])
  = calculate (group df iv dv cv) (group df iv dv tv) cv tv.
Proof.
  intros Hval Hc Ht. unfold Library.welch_t_test_body. rewrite Hval. simpl bind.
  destruct (extract_groups_cases df iv dv cv tv Hval) as [(_ & _ & Hext) | ([Hlt | Hlt] & _)];
    [| lia | lia].
  rewrite Hext. reflexivity.
Qed.
End Steps.

Section Subsequences.
Context {A B : Type}.

Lemma subsequence_refl (l : list A) : subsequence l l.
Proof. induction l; [apply subsequence_nil | apply subsequence_take; assumption]. Qed.

Lemma subsequence_trans (l1 l2 l3 : list A) :
  subsequence l1 l2 -> subsequence l2 l3 -> subsequence l1 l3.
Proof.
  intros H12 H23. revert l1 H12.
  induction H23 as [l | x l2 l3 _ IH | x l2 l3 _ IH]; intros l1 H12.
  - inversion H12; subst. apply subsequence_nil.
  - apply subsequence_skip. now apply IH.
  - inversion H12; subst;
      [apply subsequence_nil | apply subsequence_skip | apply subsequence_take]; now apply IH.
Qed.

Lemma filter_subsequence (p : A -> bool) (l : list A) : subsequence (filter p l) l.
Proof.
  induction l as [| x l IH]; simpl; [apply subsequence_nil |].
  destruct (p x); [apply subsequence_take | apply subsequence_skip]; assumption.
Qed.

Lemma map_subsequence (f : A -> B) (l1 l2 : list A) :
  subsequence l1 l2 -> subsequence (map f l1) (map f l2).
Proof.
  induction 1; simpl;
    [apply subsequence_nil | apply subsequence_skip | apply subsequence_take]; assumption.
Qed.

Lemma combine_snd_subsequence (a : list A) (b : list B) :
  subsequence (map snd (combine a b)) b.
Proof.
  revert b. induction a as [| x a IH]; intros [| y b]; simpl;
    [apply subsequence_nil | apply subsequence_nil | apply subsequence_nil |].
  apply subsequence_take, IH.
Qed.
End Subsequences.

Section MoreFrames.
Context {F : Type} {arith : Arith F}.

Lemma select_subsequence (indep dep : Series F) (v : value F) :
  subsequence (select indep dep v) dep.
Proof.
  unfold select.
  apply subsequence_trans with (map snd (combine indep dep));
    [apply map_subsequence, filter_subsequence | apply combine_snd_subsequence].
Qed.

Lemma dropna_present (s : Series F) : Forall (fun v => isna v = false) (dropna s).
Proof.
  apply Forall_forall. intros v Hv. apply filter_In in Hv as [_ Hv].
  now apply negb_true_iff in Hv.
Qed.

(** No row is selected for a value no grouping cell equals. *)
Lemma select_none (indep dep : Series F) (v : value F) :
  forallb (fun c => negb (value_eqb c v)) indep = true -> select indep dep v = [].
Proof.
  unfold select. revert dep.
  induction indep as [| c indep IH]; intros [| d dep]; simpl; trivial.
  intros Hall. apply andb_prop in Hall as [Hc Hall]. apply negb_true_iff in Hc.
  rewrite Hc. now apply IH.
Qed.

(** A group of numbers and missing values is, after the drop, an array of
    numbers. *)
Lemma dropna_numeric (s : Series F) :
  forallb numeric_or_missing s = true -> exists xs, as_numeric (dropna s) = Some xs.
Proof.
  induction s as [| v s IH]; simpl; [now exists [] |].
  intros Hall. apply andb_prop in Hall as [Hv Hall]. destruct (IH Hall) as [xs Hxs].
  destruct v as [x | str |]; simpl in *; try discriminate; [| now exists xs].
  destruct (fisnan x); simpl; [now exists xs |]. rewrite Hxs. now exists (x :: xs).
Qed.

Lemma select_numeric (indep dep : Series F) (v : value F) :
  forallb numeric_or_missing dep = true ->
  forallb numeric_or_missing (select indep dep v) = true.
Proof.
  intros Hdep. apply forallb_forall. intros c Hc.
  unfold select in Hc. apply in_map_iff in Hc as ([i d] & <- & Hin).
  apply filter_In in Hin as [Hin _]. apply in_combine_r in Hin.
  rewrite forallb_forall in Hdep. now apply Hdep.
Qed.
End MoreFrames.

Section MoreEntry.
Context {F : Type} {arith : Arith F} {runtime : Runtime F}.

(** The handler lets an exception of the two named kinds through. *)
Lemma handle_Raise_unchanged {A} (e : exn) :
  exn_cls e = InvalidDataError \/ exn_cls e = InvalidColumnError ->
  Library.handle (A := A) (Raise e) = Raise e.
Proof. destruct e as [cls m]. simpl. intros [-> | ->]; reflexivity. Qed.

(** What the handler can let out. *)
Lemma handle_Raise_class {A} (body : outcome A) (e : exn) :
  Library.handle body = Raise e ->
  exists e0, body = Raise e0 /\
    ((isinstance e0 InvalidColumnError || isinstance e0 InvalidDataError = true /\ e = e0) \/
     (isinstance e0 InvalidColumnError || isinstance e0 InvalidDataError = false /\
      e = mk_exn WelchTTestError ("T-test calculation failed: " ++ exn_message e0))).
Proof.
  destruct body as [a | e0]; simpl; [discriminate |].
  destruct (isinstance e0 InvalidColumnError || isinstance e0 InvalidDataError) eqn:Hk;
    intros [= <-]; exists e0; auto.
Qed.

(** An exception of the calculation is the primitive's own or numpy's
    TypeError. *)
Lemma calculate_Raise (c t : Series F) (cv tv : value F) (e : exn) :
  calculate c t cv tv = Raise e -> ttest_ind c t = Raise e \/ exn_cls e = TypeError.
Proof.
  unfold calculate, np_mean, np_std.
  destruct (ttest_ind c t) as [[ts p] | e0]; simpl; [| intros [= <-]; now left].
  destruct (as_numeric c); simpl; [| intros [= <-]; now right].
  destruct (as_numeric t); simpl; [discriminate | intros [= <-]; now right].
Qed.

(** Where an exception of the body comes from. *)
Lemma welch_t_test_body_Raise (dataframe : table_arg F) (iv dv : string) (ctv : pair_arg F)
    (e : exn) :
  Library.welch_t_test_body dataframe iv dv ctv = Raise e ->
  exn_cls e = InvalidDataError \/ exn_cls e = InvalidColumnError \/
  (ctv = ScalarArrayArg /\ e = mk_exn TypeError "len() of unsized object") \/
  exists df cv tv,
    dataframe = Frame df /\ ctv = SeqArg [cv; tv] /\
    2 <= List.length (group df iv dv cv) /\ 2 <= List.length (group df iv dv tv) /\
    calculate (group df iv dv cv) (group df iv dv tv) cv tv = Raise e.
Proof.
  unfold Library.welch_t_test_body.
  destruct (Library.validate_inputs dataframe iv dv ctv) as [[] | e0] eqn:Hval; simpl bind.
  - destruct (validate_inputs_Return _ _ _ _ Hval) as (df & col & cv & tv & -> & -> & _).
    destruct (extract_groups_cases df iv dv cv tv Hval) as [(Hc & Ht & Hext) | (_ & m & Hext)];
      rewrite Hext; simpl bind.
    + intros Hcalc. right. right. right. now exists df, cv, tv.
    + intros [= <-]. now left.
  - intros [= <-]. destruct (validate_inputs_Raise _ _ _ _ _ Hval) as [H | [H | H]]; auto.
Qed.
End MoreEntry.

Section MoreClaims.
Context {F : Type} {arith : Arith F} {runtime : Runtime F}.

(** X1.  [validate_inputs] accepts exactly a non-empty DataFrame that
    holds both named columns, whose grouping column has at most two
    distinct values, together with a list, tuple or array of two values. *)
Theorem validate_inputs_accepts_iff (dataframe : table_arg F) (iv dv : string)
    (ctv : pair_arg F) :
  Library.validate_inputs dataframe iv dv ctv = Return tt <->
  exists df col cv tv,
    dataframe = Frame df /\ ctv = SeqArg [cv; tv] /\
    empty df = false /\ getitem df iv = Return col /\ has_column dv df = true /\
    nunique col <= 2.
Proof.
  split; [apply validate_inputs_Return |].
  intros (df & col & cv & tv & -> & -> & Hempty & Hcol & Hdv & Hn).
  now apply validate_inputs_intro with col.
Qed.

(** X2.  On a non-empty table that lacks a named column, the library's
    entry point raises [InvalidColumnError] naming the first missing
    column, the grouping column before the dependent one, whatever the
    other arguments are; the permissive variant returns the same message
    in an error mapping. *)
Theorem missing_column_reported (df : DataFrame F) (iv dv : string) (ctv : pair_arg F) :
  empty df = false ->
  has_column iv df && has_column dv df = false ->
  let missing := if has_column iv df then dv else iv in
  let message := ("Column '" ++ missing ++ "' not found in dataframe")%string in
  Library.welch_t_test (Frame df) iv dv ctv = Raise (mk_exn InvalidColumnError message) /\
  Script.welch_t_test (Frame df) iv dv ctv = Return (ErrorMapping message).
Proof.
  intros Hempty Hmiss missing message. subst missing message.
  unfold Library.welch_t_test, Library.welch_t_test_body, Library.validate_inputs.
  unfold Script.welch_t_test, Script.welch_t_test_body. simpl attr_columns. simpl bind.
  change (existsb (String.eqb iv) (columns df)) with (has_column iv df).
  change (existsb (String.eqb dv) (columns df)) with (has_column dv df).
  rewrite Hempty.
  destruct (has_column iv df); simpl in *; [rewrite Hmiss |]; split; reflexivity.
Qed.

(** X3.  When the validation has passed and no cell of the grouping column
    equals the control value, the entry point fails with "No data found for
    control value '...'": the library raises [InvalidDataError], the
    permissive variant returns the message in an error mapping. *)
Theorem absent_control_value_reported (df : DataFrame F) (iv dv : string) (cv tv : value F)
    (col : Series F) :
  Library.validate_inputs (Frame df) iv dv (SeqArg [cv; tv]) = Return tt ->
  getitem df iv = Return col ->
  forallb (fun c => negb (value_eqb c cv)) col = true ->
  let message := ("No data found for control value '" ++ py_str cv ++ "'")%string in
  Library.welch_t_test (Frame df) iv dv (SeqArg [cv; tv])
  = Raise (mk_exn InvalidDataError message) /\
  Script.welch_t_test (Frame df) iv dv (SeqArg [cv; tv]) = Return (ErrorMapping message).
Proof.
  intros Hval Hcol Hnone message. subst message.
  pose proof Hval as Hval'.
  apply validate_inputs_Return in Hval'
    as (df' & col' & cv' & tv' & [= <-] & _ & _ & Hcol' & Hdv & Hn).
  rewrite Hcol in Hcol'. injection Hcol' as <-.
  destruct (has_column_getitem df dv Hdv) as [dep Hdep].
  pose proof (select_none col dep cv Hnone) as Hsel.
  split.
  - unfold Library.welch_t_test, Library.welch_t_test_body. rewrite Hval. simpl bind.
    unfold Library.extract_groups. simpl unpack2. simpl subscript.
    rewrite Hcol, Hdep. simpl bind. rewrite Hsel. reflexivity.
  - unfold Script.welch_t_test, Script.welch_t_test_body. simpl attr_columns. simpl bind.
    change (existsb (String.eqb iv) (columns df)) with (has_column iv df).
    change (existsb (String.eqb dv) (columns df)) with (has_column dv df).
    rewrite (getitem_has_column df iv col Hcol), Hdv. simpl. rewrite Hcol. simpl.
    apply Nat.ltb_ge in Hn. rewrite Hn, Hdep. simpl. rewrite Hsel. reflexivity.
Qed.

(** X4.  A missing value cannot identify a group: with [None] as control
    value, a call that passes the validation raises [InvalidDataError]
    "No data found for control value 'None'", also when the grouping
    column holds missing cells. *)
Theorem missing_label_selects_nothing (df : DataFrame F) (iv dv : string) (tv : value F) :
  Library.validate_inputs (Frame df) iv dv (SeqArg [VNone; tv]) = Return tt ->
  Library.welch_t_test (Frame df) iv dv (SeqArg [VNone; tv])
  = Raise (mk_exn InvalidDataError "No data found for control value 'None'").
Proof.
  intros Hval. pose proof Hval as Hval'.
  apply validate_inputs_Return in Hval'
    as (df' & col & cv' & tv' & [= <-] & _ & _ & Hcol & Hdv & _).
  destruct (has_column_getitem df dv Hdv) as [dep Hdep].
  assert (Hsel : select col dep VNone = []).
  { apply select_none. apply forallb_forall. intros c _. now destruct c. }
  unfold Library.welch_t_test, Library.welch_t_test_body. rewrite Hval. simpl bind.
  unfold Library.extract_groups. simpl unpack2. simpl subscript.
  rewrite Hcol, Hdep. simpl bind. rewrite Hsel. reflexivity.
Qed.

(** X5.  What [extract_groups] returns: the pair of values as passed, and
    two groups of two observations or more, none of them missing, each
    taken from the dependent column in the order of the rows. *)
Theorem extract_groups_invariants (df : DataFrame F) (iv dv : string) (cv tv : value F)
    (c t : Series F) (cv' tv' : value F) :
  Library.extract_groups (Frame df) iv dv (SeqArg [cv; tv]) = Return (c, t, cv', tv') ->
  cv' = cv /\ tv' = tv /\
  2 <= List.length c /\ 2 <= List.length t /\
  Forall (fun v => isna v = false) c /\ Forall (fun v => isna v = false) t /\
  exists dep, getitem df dv = Return dep /\ subsequence c dep /\ subsequence t dep.
Proof.
  intros Hext. apply extract_groups_Return in Hext as (-> & -> & -> & -> & Hc & Ht).
  revert Hc Ht. unfold group.
  destruct (getitem df iv) as [indep | e]; [| simpl; lia].
  destruct (getitem df dv) as [dep | e]; [| simpl; lia].
  intros Hc Ht. repeat split; trivial; try apply dropna_present.
  exists dep. split; [reflexivity |]. split.
  - apply subsequence_trans with (select indep dep cv);
      [apply filter_subsequence | apply select_subsequence].
  - apply subsequence_trans with (select indep dep tv);
      [apply filter_subsequence | apply select_subsequence].
Qed.

(** X6.  Whenever the library's entry point returns a result, the
    permissive variant returns the same result on the same arguments. *)
Theorem library_result_is_script_result (dataframe : table_arg F) (iv dv : string)
    (ctv : pair_arg F) (r : Results F) :
  Library.welch_t_test dataframe iv dv ctv = Return r ->
  Script.welch_t_test dataframe iv dv ctv = Return (ResultMapping r).
Proof.
  intros Hr.
  apply welch_t_test_Return in Hr as (df & cv & tv & -> & -> & Hval & Hc & Ht & Hcalc).
  apply validate_inputs_Return in Hval
    as (df' & col & cv' & tv' & [= <-] & _ & _ & Hcol & Hdv & Hn).
  destruct (has_column_getitem df dv Hdv) as [dep Hdep].
  revert Hc Ht Hcalc. unfold group. rewrite Hcol, Hdep. intros Hc Ht Hcalc.
  pose proof (dropna_length (select col dep cv)) as LC.
  pose proof (dropna_length (select col dep tv)) as LT.
  unfold Script.welch_t_test, Script.welch_t_test_body. simpl attr_columns. simpl bind.
  change (existsb (String.eqb iv) (columns df)) with (has_column iv df).
  change (existsb (String.eqb dv) (columns df)) with (has_column dv df).
  rewrite (getitem_has_column df iv col Hcol), Hdv. simpl. rewrite Hcol. simpl.
  apply Nat.ltb_ge in Hn. rewrite Hn, Hdep. simpl.
  assert (E1 : (List.length (select col dep cv) =? 0)%nat = false) by (apply Nat.eqb_neq; lia).
  assert (E2 : (List.length (select col dep tv) =? 0)%nat = false) by (apply Nat.eqb_neq; lia).
  assert (E3 : (List.length (dropna (select col dep cv)) =? 0)%nat = false)
    by (apply Nat.eqb_neq; lia).
  assert (E4 : (List.length (dropna (select col dep tv)) =? 0)%nat = false)
    by (apply Nat.eqb_neq; lia).
  rewrite E1, E2, E3, E4, Hcalc. reflexivity.
Qed.

(** X8.  Every exception the library's entry point lets out has one of
    four classes: [WelchTTestError], [InvalidDataError],
    [InvalidColumnError] or [InsufficientDataError], the last only when
    the numeric primitive raised that very exception.  So the entry point
    never raises [StatisticalError], nor any built-in exception. *)
Theorem raised_exception_classes (dataframe : table_arg F) (iv dv : string) (ctv : pair_arg F)
    (e : exn) :
  Library.welch_t_test dataframe iv dv ctv = Raise e ->
  (exn_cls e = WelchTTestError \/ exn_cls e = InvalidDataError \/
   exn_cls e = InvalidColumnError \/ exn_cls e = InsufficientDataError) /\
  exn_cls e <> StatisticalError /\
  (exn_cls e = InsufficientDataError -> exists c t, ttest_ind c t = Raise e).
Proof.
  unfold Library.welch_t_test. intros He.
  apply handle_Raise_class in He as (e0 & Hbody & [[Hk ->] | [Hk ->]]).
  - destruct e0 as [cls m]. destruct cls; try discriminate; simpl in *;
      (split; [auto | split; [discriminate |]]); try discriminate.
    intros _. apply welch_t_test_body_Raise in Hbody
      as [Hcls | [Hcls | [[_ Hcls] | (df & cv & tv & _ & _ & _ & _ & Hcalc)]]]; try discriminate.
    apply calculate_Raise in Hcalc as [Hprim | Hcls]; [eauto | discriminate].
  - simpl. split; [auto | split; discriminate].
Qed.

(** X10.  The code does not refuse a pair of two equal values: on such a
    call that succeeds, the group is compared with itself, so both means,
    both standard deviations and both counts coincide, and both echoed
    values are the value given. *)
Theorem equal_labels_compare_a_group_with_itself (dataframe : table_arg F) (iv dv : string)
    (ctv : pair_arg F) (v : value F) (r : Results F) :
  succeeds dataframe iv dv ctv r ->
  elements ctv = [v; v] ->
  mean_control r = mean_test r /\ std_control r = std_test r /\ n_control r = n_test r /\
  mean_difference r = fsub (mean_control r) (mean_control r) /\
  control_value r = v /\ test_value r = v.
Proof.
  intros Hr Hv.
  apply succeeds_fields in Hr
    as (df & cv & tv & xs & ys & t & p & -> & Hctv & Hxs & Hys & _ & _ & _ & ->).
  rewrite Hv in Hctv. injection Hctv as <- <-.
  rewrite Hxs in Hys. injection Hys as <-. repeat split.
Qed.

(** X14.  On every successful call of the library's entry point,
    [n_control] and [n_test] are the numbers of observations of the two
    groups after the NaN-drop, both at least 2, and [control_value] and
    [test_value] are the two values passed, in their order. *)
Theorem result_counts_and_labels (dataframe : table_arg F) (iv dv : string) (ctv : pair_arg F)
    (r : Results F) :
  Library.welch_t_test dataframe iv dv ctv = Return r ->
  exists df,
    dataframe = Frame df /\
    ctv = SeqArg [control_value r; test_value r] /\
    n_control r = List.length (group df iv dv (control_value r)) /\
    n_test r = List.length (group df iv dv (test_value r)) /\
    2 <= n_control r /\ 2 <= n_test r.
Proof.
  intros Hr.
  apply welch_t_test_Return in Hr as (df & cv & tv & -> & -> & _ & Hc & Ht & Hcalc).
  apply calculate_Return in Hcalc as (t & p & xs & ys & _ & _ & _ & ->).
  exists df. repeat split; assumption.
Qed.
End MoreClaims.

Section MoreStatistic.
Context {F : Type} {arith : Arith F}.
Variable str_of_num : F -> string.
Variable error_text : Series F -> string.

(** With scipy's primitive the calculation returns on two arrays of
    numbers. *)
Lemma calculate_numeric (c t : Series F) (cv tv : value F) (xs ys : list F) :
  as_numeric c = Some xs -> as_numeric t = Some ys ->
  @calculate F _ (scipy_runtime str_of_num error_text) c t cv tv
  = Return (mk_results (fst (welch_statistic xs ys)) (snd (welch_statistic xs ys))
              (welch_df (fsq (std1 xs)) (List.length c) (fsq (std1 ys)) (List.length t))
              (mean xs) (mean ys) (std1 xs) (std1 ys) (List.length c) (List.length t)
              (fsub (mean ys) (mean xs)) cv tv).
Proof.
  intros Hxs Hys. unfold calculate, np_mean, np_std.
  cbn [ttest_ind scipy_runtime]. unfold scipy_ttest_ind. rewrite Hxs, Hys.
  destruct (welch_statistic xs ys) as [ts p]. reflexivity.
Qed.

(** With a primitive that returns, the calculation returns on two arrays
    of numbers. *)
Lemma calculate_returns {runtime : Runtime F} (c t : Series F) (cv tv : value F) :
  as_numeric c <> None -> as_numeric t <> None ->
  (exists r, ttest_ind c t = Return r) ->
  exists r, calculate c t cv tv = Return r.
Proof.
  intros Hc Ht [[ts p] Hprim]. unfold calculate, np_mean, np_std. rewrite Hprim. simpl bind.
  destruct (as_numeric c) as [xs |]; [| contradiction].
  destruct (as_numeric t) as [ys |]; [| contradiction].
  eexists. reflexivity.
Qed.

(** X7.  Provided the numeric primitive returns on every two arrays of
    two numbers or more, the calculation step cannot fail on a table with
    distinct column names whose dependent column is a float64 column
    (numbers and missing values only), the group values being scalars: an
    exception of the library's
    entry point is then an [InvalidDataError] or an [InvalidColumnError]
    of the validation or the extraction, and the wrapping "T-test
    calculation failed" arises from one argument only, a zero-dimensional
    array for [control_test_values], whose [len] raises inside the
    validation. *)
Theorem numeric_column_calculation_cannot_fail {runtime : Runtime F} (df : DataFrame F)
    (iv dv : string) (ctv : pair_arg F) (dep : Series F) (e : exn) :
  primitive_returns_on_numbers ->
  NoDup (columns df) ->
  getitem df dv = Return dep ->
  forallb numeric_or_missing dep = true ->
  Library.welch_t_test (Frame df) iv dv ctv = Raise e ->
  exn_cls e = InvalidDataError \/ exn_cls e = InvalidColumnError \/
  (ctv = ScalarArrayArg /\
   e = mk_exn WelchTTestError "T-test calculation failed: len() of unsized object").
Proof.
  intros Hprim _ Hdep Hnum. unfold Library.welch_t_test. intros He.
  destruct (Library.welch_t_test_body (Frame df) iv dv ctv) as [r | e0] eqn:Hbody;
    [discriminate |].
  destruct (welch_t_test_body_Raise _ _ _ _ _ Hbody)
    as [Hcls | [Hcls | [[-> ->] | (df' & cv & tv & [= <-] & -> & Hc & Ht & Hcalc)]]].
  - rewrite handle_Raise_unchanged in He by auto. injection He as <-. auto.
  - rewrite handle_Raise_unchanged in He by auto. injection He as <-. auto.
  - simpl in He. injection He as <-. right. right. split; reflexivity.
  - exfalso. revert Hc Ht Hcalc. unfold group. rewrite Hdep.
    destruct (getitem df iv) as [indep | e1]; [| simpl; lia].
    intros Hc Ht Hcalc.
    destruct (dropna_numeric (select indep dep cv) (select_numeric indep dep cv Hnum)) as [xs Hxs].
    destruct (dropna_numeric (select indep dep tv) (select_numeric indep dep tv Hnum)) as [ys Hys].
    destruct (calculate_returns (dropna (select indep dep cv)) (dropna (select indep dep tv)) cv tv)
      as [r Hr]; try congruence.
    apply Hprim; try assumption; congruence.
Qed.
End MoreStatistic.

Section MoreExact.
Local Open Scope R_scope.

Lemma Return_inj {A : Type} (a b : A) : Return a = Return b -> a = b.
Proof. now intros [= ->]. Qed.

(** The statistic of the primitive changes sign with the order of its
    arguments. *)
Lemma welch_statistic_swap (xs ys : list R) :
  fst (welch_statistic ys xs) = - fst (welch_statistic xs ys).
Proof.
  unfold welch_statistic. cbn [fst].
  set (a := fdiv (var1 xs) (of_int (List.length xs))).
  set (b := fdiv (var1 ys) (of_int (List.length ys))).
  set (mx := mean xs). set (my := mean ys).
  cbn [fsub fadd fdiv fsqrt exact]. rewrite (Rplus_comm b a). unfold Rdiv. ring.
Qed.

(** The expression of the degrees of freedom does not depend on the order
    of the two groups. *)
Lemma welch_df_swap (s1 s2 : R) (n1 n2 : nat) : welch_df s2 n2 s1 n1 = welch_df s1 n1 s2 n2.
Proof.
  unfold welch_df.
  set (a := fdiv s1 (of_int n1)). set (b := fdiv s2 (of_int n2)).
  set (qa := fdiv (fsq a) (of_int (n1 - 1))). set (qb := fdiv (fsq b) (of_int (n2 - 1))).
  cbn [fadd exact]. now rewrite (Rplus_comm b a), (Rplus_comm qb qa).
Qed.

(** X9.  In exact arithmetic and with scipy's primitive, swapping the two
    values of the pair on a successful call of the library's entry point
    gives a successful call whose group statistics and echoed values are
    swapped, whose statistic and mean difference are negated, and whose
    degrees of freedom are the same. *)
Theorem swapped_pair_negates_statistic (str_of_num : R -> string)
    (error_text : Series R -> string) (df : DataFrame R) (iv dv : string) (cv tv : value R)
    (r : Results R) :
  @Library.welch_t_test R exact (scipy_runtime str_of_num error_text)
    (Frame df) iv dv (SeqArg [cv; tv]) = Return r ->
  exists r',
    @Library.welch_t_test R exact (scipy_runtime str_of_num error_text)
      (Frame df) iv dv (SeqArg [tv; cv]) = Return r' /\
    mean_control r' = mean_test r /\ mean_test r' = mean_control r /\
    std_control r' = std_test r /\ std_test r' = std_control r /\
    n_control r' = n_test r /\ n_test r' = n_control r /\
    control_value r' = test_value r /\ test_value r' = control_value r /\
    mean_difference r' = - mean_difference r /\
    t_statistic r' = - t_statistic r /\
    degrees_of_freedom r' = degrees_of_freedom r.
Proof.
  intros Hr.
  apply welch_t_test_Return in Hr
    as (df' & cv' & tv' & [= <-] & [= <- <-] & Hval & Hc & Ht & Hcalc).
  assert (Hval' : Library.validate_inputs (Frame df) iv dv (SeqArg [tv; cv]) = Return tt).
  { apply validate_inputs_Return in Hval
      as (df' & col & cv' & tv' & [= <-] & _ & Hempty & Hcol & Hdv & Hn).
    now apply validate_inputs_intro with col. }
  destruct (calculate_Return _ _ _ _ _ Hcalc) as (t & p & xs & ys & _ & Hxs & Hys & _).
  rewrite (calculate_numeric _ _ _ _ cv tv xs ys Hxs Hys) in Hcalc.
  apply Return_inj in Hcalc. subst r.
  eexists. split.
  { unfold Library.welch_t_test.
    rewrite (welch_t_test_body_calculate df iv dv tv cv Hval' Ht Hc).
    rewrite (calculate_numeric _ _ _ _ tv cv ys xs Hys Hxs). reflexivity. }
  cbn [mean_control mean_test std_control std_test n_control n_test control_value test_value
       mean_difference t_statistic degrees_of_freedom].
  repeat split.
  - set (mx := mean xs). set (my := mean ys). cbn [fsub exact]. ring.
  - apply welch_statistic_swap.
  - apply welch_df_swap.
Qed.

(** X11.  In exact arithmetic, when one group of a successful call of the
    library's entry point has standard deviation zero and the other has
    not, the degrees of freedom are the size of the other group minus
    one. *)
Theorem one_constant_group_degrees_of_freedom {runtime : Runtime R} (dataframe : table_arg R)
    (iv dv : string) (ctv : pair_arg R) (r : Results R) :
  Library.welch_t_test dataframe iv dv ctv = Return r ->
  (std_test r = 0 -> std_control r <> 0 -> degrees_of_freedom r = INR (n_control r - 1)) /\
  (std_control r = 0 -> std_test r <> 0 -> degrees_of_freedom r = INR (n_test r - 1)).
Proof.
  intros Hr.
  apply welch_t_test_fields in Hr
    as (df & cv & tv & xs & ys & t & p & _ & _ & _ & _ & Lx & Ly & _ & ->).
  cbn [std_control std_test n_control n_test degrees_of_freedom].
  unfold welch_df, fsq. cbn [fadd fmul fdiv of_int exact].
  assert (H1 : INR (List.length xs) <> 0) by (apply not_0_INR; lia).
  assert (H2 : INR (List.length ys) <> 0) by (apply not_0_INR; lia).
  assert (Hm1 : INR (List.length xs - 1) <> 0) by (apply not_0_INR; lia).
  assert (Hm2 : INR (List.length ys - 1) <> 0) by (apply not_0_INR; lia).
  split; intros Hz Hnz; rewrite Hz; field; repeat split; assumption.
Qed.
End MoreExact.

Section MoreFormatting.
Context {F : Type} {arith : Arith F} {runtime : Runtime F} {formatting : Formatting F}.

Lemma format_f_cases (digits : nat) (o : obj F) :
  (formattable o = true /\ exists text, format_f digits o = Return text) \/
  (formattable o = false /\ exists e, format_f digits o = Raise e).
Proof.
  destruct o as [x | p | n | n | b | s |]; simpl; eauto. destruct (float_of_int n); eauto.
Qed.

Lemma obj_str_cases (o : obj F) :
  (printable o = true /\ exists text, obj_str o = Return text) \/
  (printable o = false /\ exists e, obj_str o = Raise e).
Proof.
  destruct o as [x | p | n | n | b | s |]; simpl; eauto. destruct (within_digit_limit n); eauto.
Qed.

(** One f-string field: the value is rendered and the evaluation goes on,
    or the field raises and nothing is returned. *)
Ltac render n k :=
  let Hf := fresh "Hf" in
  let Ht := fresh "Ht" in
  match goal with
  | |- context [format_f n (dict_get ?d k ?dflt)] =>
      destruct (format_f_cases n (dict_get d k dflt)) as [[Hf [? Ht]] | [Hf [? Ht]]];
      rewrite Hf, Ht; cbn [bind andb];
      [| split; [intros [? ?]; discriminate | intros [? ?]; discriminate]]
  end.

Ltac print k :=
  let Hf := fresh "Hf" in
  let Ht := fresh "Ht" in
  match goal with
  | |- context [obj_str (dict_get ?d k ?dflt)] =>
      destruct (obj_str_cases (dict_get d k dflt)) as [[Hf [? Ht]] | [Hf [? Ht]]];
      rewrite Hf, Ht; cbn [bind andb];
      [| split; [intros [? ?]; discriminate | intros [? ?]; discriminate]]
  end.

(** X12.  [format_results] returns a text for a dict exactly when each of
    the eight entries it renders with a format specification is present
    and holds a float, a bool, or an int that [float] converts, and none
    of the four entries it renders without one holds an int beyond the
    interpreter's limit on digits.  The default "N/A" of a missing entry
    refuses the format code, and an int too large for a float64 overflows
    although it is a number, so the call raises instead. *)
Theorem format_results_returns_iff (d : dict F) :
  (exists text, format_results (DictArg d) = Return text) <->
  forallb (fun key => formattable (dict_get d key (OStr "N/A"))) numeric_keys = true /\
  forallb (fun key => printable (dict_get d key (OStr "N/A"))) plain_keys = true.
Proof.
  unfold format_results, numeric_keys, plain_keys. cbn [forallb].
  render 4 "t_statistic". render 4 "p_value". render 2 "degrees_of_freedom".
  render 4 "mean_difference". print "control_value".
  render 4 "mean_control". render 4 "std_control".
  print "n_control". print "test_value".
  render 4 "mean_test". render 4 "std_test". print "n_test".
  split; [split; reflexivity | eauto].
Qed.

(** X13.  [format_results] renders every result mapping an entry point
    returns, and raises [ValueError] on every error mapping of the
    permissive variant. *)
Theorem format_results_of_mapping (d : pydict F) :
  match d with
  | ResultMapping _ => exists text, format_results (DictArg (mapping_dict d)) = Return text
  | ErrorMapping _ =>
      format_results (DictArg (mapping_dict d))
      = Raise (mk_exn ValueError "Unknown format code 'f' for object of type 'str'")
  end.
Proof.
  destruct d as [r | message]; [| reflexivity].
  destruct r as [ts p df mc mt sc st nc nt md cv tv].
  destruct cv, tv; eexists; reflexivity.
Qed.
End MoreFormatting.

Section Converse.
Context {F : Type} {arith : Arith F} {runtime : Runtime F}.

(** The checks a successful call of the permissive variant has passed. *)
Lemma script_welch_t_test_checks (df : DataFrame F) (iv dv : string) (ctv : pair_arg F)
    (r : Results F) :
  Script.welch_t_test (Frame df) iv dv ctv = Return (ResultMapping r) ->
  exists col, getitem df iv = Return col /\ has_column dv df = true /\ nunique col <= 2.
Proof.
  unfold Script.welch_t_test.
  destruct (Script.welch_t_test_body (Frame df) iv dv ctv) as [[r' | m] | e] eqn:Hbody;
    try discriminate.
  intros _. revert Hbody. unfold Script.welch_t_test_body. simpl attr_columns. simpl bind.
  change (existsb (String.eqb iv) (columns df)) with (has_column iv df).
  change (existsb (String.eqb dv) (columns df)) with (has_column dv df).
  destruct (has_column iv df); [| discriminate].
  destruct (has_column dv df); [| discriminate].
  simpl negb. cbv iota. simpl subscript.
  destruct (getitem df iv) as [col | e]; [| discriminate]. simpl bind.
  destruct (2 <? nunique col)%nat eqn:Hn; [discriminate |].
  intros _. exists col. apply Nat.ltb_ge in Hn. auto.
Qed.

(** X15.  The two variants differ on successful calls only by the checks
    the permissive one lacks: when the permissive variant returns a result
    for a non-empty table and a list, tuple or array, and both counts are
    at least 2, the library's entry point returns the same result. *)
Theorem script_result_is_library_result (df : DataFrame F) (iv dv : string)
    (l : list (value F)) (r : Results F) :
  Script.welch_t_test (Frame df) iv dv (SeqArg l) = Return (ResultMapping r) ->
  empty df = false ->
  2 <= n_control r -> 2 <= n_test r ->
  Library.welch_t_test (Frame df) iv dv (SeqArg l) = Return r.
Proof.
  intros Hr Hempty Hc Ht.
  destruct (script_welch_t_test_checks df iv dv (SeqArg l) r Hr) as (col & Hcol & Hdv & Hn).
  apply script_welch_t_test_Return in Hr as (df' & cv & tv & [= <-] & Hl & _ & _ & Hcalc).
  simpl in Hl. subst l.
  pose proof (validate_inputs_intro df iv dv cv tv col Hempty Hcol Hdv Hn) as Hval.
  destruct (calculate_Return _ _ _ _ _ Hcalc) as (t & p & xs & ys & _ & _ & _ & Hfields).
  rewrite Hfields in Hc, Ht. cbn [n_control n_test] in Hc, Ht.
  unfold Library.welch_t_test.
  rewrite (welch_t_test_body_calculate df iv dv cv tv Hval Hc Ht), Hcalc. reflexivity.
Qed.
End Converse.

(** ** The further properties on worked tables *)

(** X2 on the table with three labels, asked for a column "grp". *)
Lemma missing_column_reported_witness :
  @Library.welch_t_test float binary64 float_runtime (Frame three_labels) "grp" "value" control_test
  = Raise (mk_exn InvalidColumnError "Column 'grp' not found in dataframe") /\
  @Script.welch_t_test float binary64 float_runtime (Frame three_labels) "grp" "value" control_test
  = Return (ErrorMapping "Column 'grp' not found in dataframe").
Proof.
  apply (missing_column_reported (runtime := float_runtime) three_labels "grp" "value"
           control_test); reflexivity.
Defined.

(** X3 on a table labelled "control" and "test", asked for "x" and "y". *)
Lemma absent_control_value_reported_witness :
  @Library.welch_t_test float binary64 float_runtime
    (Frame (two_groups (constant 2 1) (constant 2 2))) "group" "value" absent_pair
  = Raise (mk_exn InvalidDataError "No data found for control value 'x'").
Proof.
  apply (absent_control_value_reported (runtime := float_runtime)
           (two_groups (constant 2 1) (constant 2 2)) "group" "value" (VStr "x") (VStr "y")
           [VStr "control"; VStr "control"; VStr "test"; VStr "test"]); reflexivity.
Defined.

(** X4 on the same table, asked for [None] and "test". *)
Lemma missing_label_selects_nothing_witness :
  @Library.welch_t_test float binary64 float_runtime
    (Frame (two_groups (constant 2 1) (constant 2 2))) "group" "value"
    (SeqArg [VNone; VStr "test"])
  = Raise (mk_exn InvalidDataError "No data found for control value 'None'").
Proof.
  apply (missing_label_selects_nothing (runtime := float_runtime)
           (two_groups (constant 2 1) (constant 2 2)) "group" "value" (VStr "test")).
  reflexivity.
Defined.

(** X5 on a control group with a NaN between two observations. *)
Lemma extract_groups_invariants_witness :
  exists c t,
    @Library.extract_groups float binary64 float_runtime
      (Frame (two_groups [VNum 1%float; VNum nan; VNum 3%float] (constant 2 2)))
      "group" "value" control_test
    = Return (c, t, VStr "control", VStr "test") /\
    2 <= List.length c /\ Forall (fun v => isna v = false) c.
Proof.
  assert (Hext : @Library.extract_groups float binary64 float_runtime
                   (Frame (two_groups [VNum 1%float; VNum nan; VNum 3%float] (constant 2 2)))
                   "group" "value" control_test
                 = Return ([VNum 1%float; VNum 3%float], constant 2 2, VStr "control", VStr "test"))
    by reflexivity.
  exists [VNum 1%float; VNum 3%float], (constant 2 2).
  split; [exact Hext |].
  destruct (extract_groups_invariants (runtime := float_runtime) _ _ _ _ _ _ _ _ _ Hext)
    as (_ & _ & Hc & _ & Hpresent & _).
  split; assumption.
Defined.

(** X6 on Scenario 3 of the specification. *)
Lemma library_result_is_script_result_witness :
  exists r,
    run_float scenario3_control scenario3_test = Return r /\
    script_float scenario3_control scenario3_test = Return (ResultMapping r).
Proof.
  destruct (run_float scenario3_control scenario3_test) as [r | e] eqn:Hrun;
    [| vm_compute in Hrun; discriminate].
  exists r. split; [reflexivity |].
  exact (library_result_is_script_result (runtime := float_runtime) _ _ _ _ r Hrun).
Defined.

(** X7 with scipy's primitive, on a control group with one observation. *)
Lemma numeric_column_calculation_cannot_fail_witness :
  @primitive_returns_on_numbers float binary64 float_runtime /\
  exists e,
    run_float short_control (constant 2 2) = Raise e /\
    (exn_cls e = InvalidDataError \/ exn_cls e = InvalidColumnError).
Proof.
  assert (Hprim : @primitive_returns_on_numbers float binary64 float_runtime).
  { intros a b Ha Hb _ _. cbn [ttest_ind float_runtime scipy_runtime]. unfold scipy_ttest_ind.
    destruct (as_numeric a); [| contradiction]. destruct (as_numeric b); [| contradiction].
    eexists. reflexivity. }
  split; [exact Hprim |].
  assert (Hnames : NoDup (columns (two_groups short_control (constant 2 2)))).
  { repeat constructor; simpl; intuition discriminate. }
  destruct (run_float short_control (constant 2 2)) as [r | e] eqn:Hrun;
    [vm_compute in Hrun; discriminate |].
  exists e. split; [reflexivity |].
  destruct (numeric_column_calculation_cannot_fail (runtime := float_runtime)
              (two_groups short_control (constant 2 2)) "group" "value" control_test
              (short_control ++ constant 2 2) e Hprim Hnames eq_refl eq_refl Hrun)
    as [Hcls | [Hcls | [Hctv _]]]; [now left | now right | discriminate Hctv].
Defined.

(** X8 on a control group holding a string. *)
Lemma raised_exception_classes_witness :
  exists e,
    run_float mixed_control (constant 2 2) = Raise e /\ exn_cls e <> StatisticalError.
Proof.
  destruct (run_float mixed_control (constant 2 2)) as [r | e] eqn:Hrun;
    [vm_compute in Hrun; discriminate |].
  exists e. split; [reflexivity |].
  exact (proj1 (proj2 (raised_exception_classes (runtime := float_runtime) _ _ _ _ e Hrun))).
Defined.

(** X9 on the two groups with means 0 and 10. *)
Lemma swapped_pair_negates_statistic_witness :
  exists r r',
    run_exact spread_control spread_test = Return r /\
    @Library.welch_t_test R exact exact_runtime
      (Frame (two_groups spread_control spread_test)) "group" "value" test_control
    = Return r' /\
    t_statistic r' = (- t_statistic r)%R.
Proof.
  destruct (run_exact spread_control spread_test) as [r | e] eqn:Hrun;
    [| cbn in Hrun; discriminate].
  destruct (swapped_pair_negates_statistic (fun _ => "nan") example_error_text
              (two_groups spread_control spread_test) "group" "value"
              (VStr "control") (VStr "test") r Hrun)
    as (r' & Hswap & _ & _ & _ & _ & _ & _ & _ & _ & _ & Ht & _).
  exists r, r'. repeat split; assumption.
Defined.

(** X10 on Scenario 3, asked for "control" twice. *)
Lemma equal_labels_compare_a_group_with_itself_witness :
  exists r,
    @Library.welch_t_test float binary64 float_runtime
      (Frame (two_groups scenario3_control scenario3_test)) "group" "value"
      (SeqArg [VStr "control"; VStr "control"]) = Return r /\
    mean_control r = mean_test r /\ n_control r = n_test r.
Proof.
  destruct (@Library.welch_t_test float binary64 float_runtime
              (Frame (two_groups scenario3_control scenario3_test)) "group" "value"
              (SeqArg [VStr "control"; VStr "control"])) as [r | e] eqn:Hrun;
    [| vm_compute in Hrun; discriminate].
  exists r. split; [reflexivity |].
  destruct (equal_labels_compare_a_group_with_itself (runtime := float_runtime)
              _ _ _ _ (VStr "control") r (or_introl Hrun) eq_refl)
    as (Hmean & _ & Hn & _).
  split; assumption.
Defined.

(** X11 on a control group of variance 4 and a constant test group. *)
Lemma one_constant_group_degrees_of_freedom_witness :
  exists r,
    run_exact spread_control (constant 2 7) = Return r /\
    degrees_of_freedom r = INR (n_control r - 1).
Proof.
  eexists. split; [cbn; reflexivity |].
  match goal with
  | |- degrees_of_freedom ?r = _ =>
      destruct (one_constant_group_degrees_of_freedom (runtime := exact_runtime)
                  (Frame (two_groups spread_control (constant 2 7))) "group" "value"
                  control_test r) as [Hconstant _]
  end.
  - cbn. reflexivity.
  - apply Hconstant.
    + cbn. match goal with |- sqrt ?x = _ => replace x with 0%R by lra end. apply sqrt_0.
    + cbn. apply Rgt_not_eq, sqrt_lt_R0. lra.
Defined.

(** X14 on Scenario 3 of the specification. *)
Lemma result_counts_and_labels_witness :
  exists r,
    run_float scenario3_control scenario3_test = Return r /\
    2 <= n_control r /\ 2 <= n_test r.
Proof.
  destruct (run_float scenario3_control scenario3_test) as [r | e] eqn:Hrun;
    [| vm_compute in Hrun; discriminate].
  exists r. split; [reflexivity |].
  destruct (result_counts_and_labels (runtime := float_runtime) _ _ _ _ r Hrun)
    as (df & _ & _ & _ & _ & Hc & Ht).
  split; assumption.
Defined.

(** X15 on Scenario 3 of the specification. *)
Lemma script_result_is_library_result_witness :
  exists r,
    script_float scenario3_control scenario3_test = Return (ResultMapping r) /\
    run_float scenario3_control scenario3_test = Return r.
Proof.
  destruct (script_float scenario3_control scenario3_test) as [[r | m] | e] eqn:Hrun;
    try (vm_compute in Hrun; discriminate).
  exists r. split; [reflexivity |].
  apply (script_result_is_library_result (runtime := float_runtime)
           (two_groups scenario3_control scenario3_test) "group" "value"
           [VStr "control"; VStr "test"] r Hrun); [reflexivity | |];
    vm_compute in Hrun; injection Hrun as <-; cbn; lia.
Defined.
